(** * OCT-AI backend: storage helper, inference adapter, report generator
      and HTTP handlers, embedded from [utils/storage.py],
      [utils/inference.py], [config.py] and [app.py].

    Conventions of the embedding.
    - A Python [str] is a [string] (a sequence of 8-bit characters);
      [str.lower] and [str.upper] act on the ASCII letters, as Python's do
      on ASCII strings (a character outside ASCII is left as it is).
    - A Python [float] that is a probability is a rational [Q]; the
      conversions [float(...)] are exact, so they are the identity.
    - A Python [dict] is an association list in insertion order; writing an
      existing key replaces its value and keeps its position.
    - External libraries (werkzeug's [secure_filename], the Keras model and
      image pipeline, the [uuid] random source) are parameters of the
      functions that call them.
    - A function that can raise returns a [result]. *)

From Stdlib Require Import String Ascii List Bool Arith NArith ZArith QArith Lia.
From Stdlib Require Import DecimalString.
Import ListNotations.
Open Scope string_scope.

(* ------------------------------------------------------------------ *)
(** ** Python strings *)

Module PyStr.

Definition chars (s : string) : list ascii := list_ascii_of_string s.

(** [c in s] for a one-character needle. *)
Fixpoint contains (c : ascii) (s : string) : bool :=
  match s with
  | EmptyString => false
  | String a s' => Ascii.eqb a c || contains c s'
  end.

(** [s.startswith(p)]. *)
Fixpoint startswith (p s : string) : bool :=
  match p, s with
  | EmptyString, _ => true
  | String a p', String b s' => Ascii.eqb a b && startswith p' s'
  | String _ _, EmptyString => false
  end.

(** [s.endswith(p)] through the reversed character lists. *)
Definition endswith (p s : string) : bool :=
  startswith (string_of_list_ascii (rev (chars p)))
             (string_of_list_ascii (rev (chars s))).

Definition is_upper (a : ascii) : bool :=
  let n := nat_of_ascii a in (65 <=? n)%nat && (n <=? 90)%nat.

Definition is_lower (a : ascii) : bool :=
  let n := nat_of_ascii a in (97 <=? n)%nat && (n <=? 122)%nat.

Definition lower_char (a : ascii) : ascii :=
  if is_upper a then ascii_of_nat (nat_of_ascii a + 32) else a.

Definition upper_char (a : ascii) : ascii :=
  if is_lower a then ascii_of_nat (nat_of_ascii a - 32) else a.

Fixpoint map_chars (f : ascii -> ascii) (s : string) : string :=
  match s with
  | EmptyString => EmptyString
  | String a s' => String (f a) (map_chars f s')
  end.

(** [s.lower()] and [s.upper()]. *)
Definition lower (s : string) : string := map_chars lower_char s.
Definition upper (s : string) : string := map_chars upper_char s.

(** The split of [s] at the last occurrence of [sep], when there is one. *)
Fixpoint split_last (sep : ascii) (s : string) : option (string * string) :=
  match s with
  | EmptyString => None
  | String a s' =>
      match split_last sep s' with
      | Some (b, t) => Some (String a b, t)
      | None => if Ascii.eqb a sep then Some (EmptyString, s') else None
      end
  end.

(** [s.rsplit(sep, 1)]: a list of two parts, or the whole string alone when
    [sep] does not occur. *)
Definition rsplit1 (sep : ascii) (s : string) : list string :=
  match split_last sep s with
  | Some (b, t) => [b; t]
  | None => [s]
  end.

(** [s.rstrip(c)] for a one-character set. *)
Fixpoint rstrip (c : ascii) (s : string) : string :=
  match s with
  | EmptyString => EmptyString
  | String a s' =>
      match rstrip c s' with
      | EmptyString => if Ascii.eqb a c then EmptyString else String a EmptyString
      | r => String a r
      end
  end.

(** [s[:n]]. *)
Fixpoint take (n : nat) (s : string) : string :=
  match n, s with
  | O, _ => EmptyString
  | S _, EmptyString => EmptyString
  | S n', String a s' => String a (take n' s')
  end.

End PyStr.

(* ------------------------------------------------------------------ *)
(** ** [os.path] on POSIX *)

Module OsPath.

Definition sep : ascii := "/"%char.

(** [os.path.join(a, b)] for two components. *)
Definition join (a b : string) : string :=
  if PyStr.startswith "/" b then b
  else if (String.eqb a "" || PyStr.endswith "/" a)%bool then a ++ b
  else a ++ "/" ++ b.

(** [os.path.basename(p)]: what follows the last separator. *)
Definition basename (p : string) : string :=
  match PyStr.split_last sep p with
  | Some (_, t) => t
  | None => p
  end.

(** [os.path.dirname(p)]: what precedes the last separator, without its
    trailing separators unless it consists of separators only. *)
Definition dirname (p : string) : string :=
  match PyStr.split_last sep p with
  | Some (h, _) =>
      let h' := String.append h "/" in
      match PyStr.rstrip sep h' with
      | EmptyString => h'
      | r => r
      end
  | None => EmptyString
  end.

End OsPath.

(* ------------------------------------------------------------------ *)
(** ** Exceptions and results *)

Inductive exn : Type :=
| IndexError
| ValueError
| KeyError (key : string)
| FileNotFoundError (path : string)
| FileExistsError (path : string)
| ExternalError (what : string)
| HTTPException (code : nat) (description : string).

Inductive result (A : Type) : Type :=
| Ok (a : A)
| Raise (e : exn).
Arguments Ok {A} a.
Arguments Raise {A} e.

Definition rbind {A B : Type} (r : result A) (k : A -> result B) : result B :=
  match r with
  | Ok a => k a
  | Raise e => Raise e
  end.

Declare Scope result_scope.
Delimit Scope result_scope with result.
Notation "x <- r ;; k" := (rbind r (fun x => k))
  (at level 61, r at next level, right associativity) : result_scope.

(** [l[i]] on a Python list. *)
Definition py_index {A : Type} (l : list A) (i : nat) : result A :=
  match nth_error l i with
  | Some a => Ok a
  | None => Raise IndexError
  end.

(* ------------------------------------------------------------------ *)
(** ** Python dictionaries, as association lists in insertion order *)

Module Dict.

Section Dict.
Context {V : Type}.

Definition t : Type := list (string * V).

Fixpoint get (d : t) (k : string) : option V :=
  match d with
  | [] => None
  | (k', v) :: d' => if String.eqb k' k then Some v else get d' k
  end.

(** [d[k] = v]: replaces in place, or appends a new key. *)
Fixpoint set (d : t) (k : string) (v : V) : t :=
  match d with
  | [] => [(k, v)]
  | (k', v') :: d' =>
      if String.eqb k' k then (k', v) :: d' else (k', v') :: set d' k v
  end.

(** [d[k]], raising [KeyError]. *)
Definition getitem (d : t) (k : string) : result V :=
  match get d k with
  | Some v => Ok v
  | None => Raise (KeyError k)
  end.

Definition keys (d : t) : list string := map fst d.
Definition size (d : t) : nat := length d.

End Dict.
Arguments t V : clear implicits.

End Dict.

(* ------------------------------------------------------------------ *)
(** ** The file system the service sees *)

(** What a report holds: the flowables handed to [doc.build]. *)
Inductive Cell : Type :=
| CText (s : string)
| CImage (path : string)
| CParagraph (text style : string).

Inductive Flowable : Type :=
| Paragraph (text style : string)
| Spacer (w h : nat)
| Table (rows : list (list Cell)).

Inductive Content : Type :=
| Bytes (data : string)
| Pdf (title : string) (elements : list Flowable) (footer : string).

(** A directory is its file entries in listing order; the file system maps
    directory paths, compared as written, to directories. The map is flat:
    a folder is not an entry of its parent. The order in which a real
    folder lists its entries is unspecified; the model fixes one. *)
Definition Dir : Type := list (string * Content).
Definition FS : Type := list (string * Dir).

Module Fs.

Definition isdir (fs : FS) (d : string) : bool :=
  match Dict.get fs d with Some _ => true | None => false end.

(** [os.listdir(d)]. *)
Definition listdir (fs : FS) (d : string) : result (list string) :=
  match Dict.get fs d with
  | Some entries => Ok (map fst entries)
  | None => Raise (FileNotFoundError d)
  end.

(** [os.path.exists] for a file path. *)
Definition exists_file (fs : FS) (path : string) : bool :=
  match Dict.get fs (OsPath.dirname path) with
  | Some entries =>
      match Dict.get entries (OsPath.basename path) with
      | Some _ => true
      | None => false
      end
  | None => false
  end.

(** [os.makedirs(d, exist_ok=True)]: nothing to do for a directory; a
    regular file at the path, or an empty path, is an error. *)
Definition makedirs (fs : FS) (d : string) : result FS :=
  if isdir fs d then Ok fs
  else if exists_file fs d then Raise (FileExistsError d)
  else if String.eqb d "" then Raise (FileNotFoundError d)
  else Ok (Dict.set fs d []).

Definition read (fs : FS) (path : string) : result Content :=
  match Dict.get fs (OsPath.dirname path) with
  | Some entries =>
      match Dict.get entries (OsPath.basename path) with
      | Some c => Ok c
      | None => Raise (FileNotFoundError path)
      end
  | None => Raise (FileNotFoundError path)
  end.

(** Opening [path] for writing and storing [c]: the directory must exist;
    an existing entry is overwritten in place. Where a real folder lists a
    new entry is unspecified; here it is listed last. *)
Definition write (fs : FS) (path : string) (c : Content) : result FS :=
  match Dict.get fs (OsPath.dirname path) with
  | Some entries =>
      Ok (Dict.set fs (OsPath.dirname path)
            (Dict.set entries (OsPath.basename path) c))
  | None => Raise (FileNotFoundError path)
  end.

End Fs.

(* ------------------------------------------------------------------ *)
(** ** [config.py] *)

Record Config : Type := {
  BASE_DIR : string;
  SERVER_BASE_URL : string
}.

Definition UPLOAD_FOLDER (cfg : Config) : string := OsPath.join (BASE_DIR cfg) "uploads".
Definition RESULTS_FOLDER (cfg : Config) : string := OsPath.join (BASE_DIR cfg) "results".
Definition REPORTS_FOLDER (cfg : Config) : string := OsPath.join (BASE_DIR cfg) "reports".
Definition ALLOWED_EXTENSIONS : list string := ["png"; "jpg"; "jpeg"; "dcm"].
Definition MAX_CONTENT_LENGTH : N := 10 * 1024 * 1024.
Definition MODEL_PATH (cfg : Config) : string :=
  OsPath.join (BASE_DIR cfg) "best_oct_classifier_ft.h5".
Definition CLASS_NAMES : list string :=
  ["AMD"; "CNV"; "CSR"; "DME"; "DR"; "DRUSEN"; "MH"; "NORMAL"].

(* ------------------------------------------------------------------ *)
(** ** [utils/storage.py] *)

Fixpoint ensure_directories (fs : FS) (directories : list string) : result FS :=
  match directories with
  | [] => Ok fs
  | directory :: rest =>
      (fs' <- Fs.makedirs fs directory ;; ensure_directories fs' rest)%result
  end.

(** [extension in allowed_extensions]. *)
Definition set_mem (x : string) (s : list string) : bool :=
  existsb (String.eqb x) s.

Definition is_allowed_file (filename : string) (allowed_extensions : list string) : bool :=
  if negb (PyStr.contains "." filename) then false
  else
    match py_index (PyStr.rsplit1 "." filename) 1 with
    | Ok part => set_mem (PyStr.lower part) allowed_extensions
    | Raise _ => false
    end.

(** [uuid.uuid4()] from 128 random bits: the version and variant bits are
    forced, the rest is kept. *)
Definition uuid4 (random_bits : N) : N :=
  let i := N.land random_bits (N.ones 128) in
  let i := N.ldiff i (N.shiftl 49152 48) in
  let i := N.lor i (N.shiftl 32768 48) in
  let i := N.ldiff i (N.shiftl 61440 64) in
  N.lor i (N.shiftl 4 76).

Definition hex_digit (n : N) : ascii :=
  match n with
  | 0 => "0" | 1 => "1" | 2 => "2" | 3 => "3" | 4 => "4" | 5 => "5"
  | 6 => "6" | 7 => "7" | 8 => "8" | 9 => "9" | 10 => "a" | 11 => "b"
  | 12 => "c" | 13 => "d" | 14 => "e" | _ => "f"
  end%N%char.

(** The [k] lowest hexadecimal digits of [n], most significant first. *)
Fixpoint hex_digits (k : nat) (n : N) : string :=
  match k with
  | O => EmptyString
  | S k' =>
      String (hex_digit (N.land (N.shiftr n (4 * N.of_nat k')) 15)) (hex_digits k' n)
  end.

(** [u.hex]: 32 lowercase hexadecimal digits. *)
Definition uuid_hex (u : N) : string := hex_digits 32 u.

Definition generate_image_id (random_bits : N) : string :=
  "oct_" ++ PyStr.take 8 (uuid_hex (uuid4 random_bits)).

Definition build_saved_filename (secure_filename : string -> string)
    (image_id original_filename : string) : string :=
  (image_id ++ "_") ++ secure_filename original_filename.

(** The [for] loop of [find_image_path_by_id] over the listing. *)
Fixpoint first_with_prefix (prefix : string) (names : list string) : option string :=
  match names with
  | [] => None
  | name :: rest =>
      if PyStr.startswith prefix name then Some name
      else first_with_prefix prefix rest
  end.

Definition find_image_path_by_id (fs : FS) (image_id upload_folder : string)
  : result (option string) :=
  if negb (Fs.isdir fs upload_folder) then Ok None
  else
    (names <- Fs.listdir fs upload_folder ;;
     let prefix := image_id ++ "_" in
     match first_with_prefix prefix names with
     | Some name => Ok (Some (OsPath.join upload_folder name))
     | None => Ok None
     end)%result.

(* ------------------------------------------------------------------ *)
(** ** Formatting of numbers *)

Module Fmt.

Definition nat_str (n : N) : string := NilZero.string_of_uint (N.to_uint n).

(** The integer nearest to [q], ties to the even one. *)
Definition round_half_even (q : Q) : Z :=
  let n := Qnum q in
  let d := Z.pos (Qden q) in
  let f := (n / d)%Z in
  let r := (2 * (n - f * d))%Z in
  if (r <? d)%Z then f
  else if (d <? r)%Z then (f + 1)%Z
  else if Z.even f then f else (f + 1)%Z.

Fixpoint zero_pad (width : nat) (s : string) : string :=
  match width with
  | O => s
  | S w => if (String.length s <? width)%nat then zero_pad w ("0" ++ s) else s
  end.

(** [format(q, ".{digits}f")]. *)
Definition fixed (digits : nat) (q : Q) : string :=
  let scale := (10 ^ Z.of_nat digits)%Z in
  let r := round_half_even (q * inject_Z scale) in
  let a := Z.abs r in
  let sign := if (Qnum q <? 0)%Z then "-" else "" in
  let int_part := nat_str (Z.to_N (a / scale)) in
  match digits with
  | O => sign ++ int_part
  | _ => sign ++ int_part ++ "." ++ zero_pad digits (nat_str (Z.to_N (a mod scale)))
  end.

(** [str(q)] for a value with a short finite decimal expansion: the fewest
    decimals, at least one, that print it exactly. *)
Fixpoint shortest_from (fuel digits : nat) (q : Q) : string :=
  match fuel with
  | O => fixed digits q
  | S fuel' =>
      if Qeq_bool (inject_Z (round_half_even (q * inject_Z (10 ^ Z.of_nat digits))))
                  (q * inject_Z (10 ^ Z.of_nat digits))
      then fixed digits q
      else shortest_from fuel' (S digits) q
  end.

Definition repr (q : Q) : string := shortest_from 16 1 q.

End Fmt.

(* ------------------------------------------------------------------ *)
(** ** [utils/inference.py] *)

(** A loaded Keras model: [predict m x] is [m.predict(x)[0]], the score
    vector of the single image of the batch. *)
Record Model : Type := { predict : list Q -> list Q }.

(** The libraries the service calls; [decode_image] and [parse_model]
    answer [None] when the library raises. *)
Record Externals : Type := {
  secure_filename : string -> string;
  decode_image : string -> nat * nat -> option (list Q);
  parse_model : string -> option Model
}.

Record World : Type := {
  fs : FS;
  _model : option Model;
  load_log : list string
}.

Definition with_fs (w : World) (fs' : FS) : World :=
  {| fs := fs'; _model := _model w; load_log := load_log w |}.

Definition DEFAULT_CLASS_NAMES : list string :=
  ["AMD"; "CNV"; "CSR"; "DME"; "DR"; "DRUSEN"; "MH"; "NORMAL"].

(** [load_model(path)]: reads the file and parses it. *)
Definition load_model (ext : Externals) (w : World) (model_path : string) : result Model :=
  (c <- Fs.read (fs w) model_path ;;
   match c with
   | Bytes data =>
       match parse_model ext data with
       | Some m => Ok m
       | None => Raise (ExternalError "load_model")
       end
   | Pdf _ _ _ => Raise (ExternalError "load_model")
   end)%result.

(** [get_model]: the global [_model] is assigned only when [load_model]
    returns; [load_log] records on which paths [load_model] was called. *)
Definition get_model (ext : Externals) (model_path : string) (w : World)
  : result Model * World :=
  match _model w with
  | None =>
      let w1 := {| fs := fs w; _model := None;
                   load_log := (load_log w ++ [model_path])%list |} in
      match load_model ext w model_path with
      | Ok m => (Ok m, {| fs := fs w; _model := Some m; load_log := load_log w1 |})
      | Raise e => (Raise e, w1)
      end
  | Some m => (Ok m, w)
  end.

Definition load_img (ext : Externals) (w : World) (image_path : string)
    (target_size : nat * nat) : result (list Q) :=
  (c <- Fs.read (fs w) image_path ;;
   match c with
   | Bytes data =>
       match decode_image ext data target_size with
       | Some img => Ok img
       | None => Raise (ExternalError "load_img")
       end
   | Pdf _ _ _ => Raise (ExternalError "load_img")
   end)%result.

Definition img_to_array (img : list Q) : list Q := img.
Definition expand_dims (x : list Q) : list Q := x.
(** Inception-v3 preprocessing: pixel values from [0,255] to [-1,1]. *)
Definition preprocess_input (x : list Q) : list Q :=
  map (fun v => v / (255 # 2) - 1) x.

(** [np.argmax]: the first position of the largest entry. *)
Fixpoint argmax_from (best_i : nat) (best : Q) (i : nat) (l : list Q) : nat :=
  match l with
  | [] => best_i
  | x :: rest =>
      if Qle_bool x best then argmax_from best_i best (S i) rest
      else argmax_from i x (S i) rest
  end.

Definition np_argmax (l : list Q) : result nat :=
  match l with
  | [] => Raise ValueError
  | x :: rest => Ok (argmax_from 0 x 1 rest)
  end.

Record PredictionResult : Type := {
  predictions : Dict.t Q;
  top_disease : string;
  confidence : Q
}.

(** [{class_names[i]: float(probs[i]) for i in range(len(class_names))}]. *)
Definition predictions_dict (class_names : list string) (probs : list Q)
  : result (Dict.t Q) :=
  fold_left
    (fun acc i =>
       (d <- acc ;;
        k <- py_index class_names i ;;
        p <- py_index probs i ;;
        Ok (Dict.set d k p))%result)
    (seq 0 (length class_names)) (Ok []).

Definition predict_oct (ext : Externals) (image_path model_path : string)
    (class_names : option (list string)) (w : World)
  : result PredictionResult * World :=
  let class_names :=
    match class_names with None => DEFAULT_CLASS_NAMES | Some l => l end in
  match get_model ext model_path w with
  | (Raise e, w1) => (Raise e, w1)
  | (Ok model, w1) =>
      ((img <- load_img ext w1 image_path (299, 299)%nat ;;
        let x := img_to_array img in
        let x := expand_dims x in
        let x := preprocess_input x in
        let probs := predict model x in
        top_idx <- np_argmax probs ;;
        preds <- predictions_dict class_names probs ;;
        top <- py_index class_names top_idx ;;
        conf <- py_index probs top_idx ;;
        Ok {| predictions := preds; top_disease := top; confidence := conf |})%result,
       w1)
  end.

(* ------------------------------------------------------------------ *)
(** ** [app.py] *)

Inductive Json : Type :=
| JStr (s : string)
| JNum (q : Q)
| JDict (fields : list (string * Q)).

Inductive Response : Type :=
| jsonify (fields : list (string * Json))
| send_file (path mimetype download_name : string).

Record FileStorage : Type := { filename : string; stream : string }.

(** A request: its uploaded files, the length of its body in bytes and the
    URL of the host it was sent to. *)
Record Request : Type := {
  files : Dict.t FileStorage;
  content_length : N;
  host_url : string
}.

(** [abort(code, description=...)]. *)
Definition abort {A : Type} (code : nat) (description : string) : result A :=
  Raise (HTTPException code description).

(** The status Flask answers with: that of an [HTTPException], 500 for any
    other exception, 200 for a returned response. *)
Definition http_status (r : result Response) : nat :=
  match r with
  | Ok _ => 200
  | Raise (HTTPException code _) => code
  | Raise _ => 500
  end.

Definition create_app (cfg : Config) (w : World) : result World :=
  (fs' <- ensure_directories (fs w)
            [UPLOAD_FOLDER cfg; RESULTS_FOLDER cfg; REPORTS_FOLDER cfg] ;;
   Ok (with_fs w fs'))%result.

(** [request.files] under [MAX_CONTENT_LENGTH], which [create_app] loads
    from the configuration: a longer body is refused with 413 when the
    files are asked for. *)
Definition request_files (request : Request) : result (Dict.t FileStorage) :=
  if (MAX_CONTENT_LENGTH <? content_length request)%N
  then abort 413 "The data value transmitted exceeds the capacity limit."
  else Ok (files request).

Definition upload_image (ext : Externals) (cfg : Config) (random_bits : N)
    (request : Request) (w : World) : result Response * World :=
  match request_files request with
  | Raise e => (Raise e, w)
  | Ok uploaded =>
  match Dict.get uploaded "image" with
  | None => (abort 400 "No file provided.", w)
  | Some file =>
      if String.eqb (filename file) "" then (abort 400 "No file provided.", w)
      else if negb (is_allowed_file (filename file) ALLOWED_EXTENSIONS)
      then (abort 400 "Unsupported file type.", w)
      else
        let image_id := generate_image_id random_bits in
        let safe_name := build_saved_filename (secure_filename ext) image_id (filename file) in
        let save_path := OsPath.join (UPLOAD_FOLDER cfg) safe_name in
        match Fs.write (fs w) save_path (Bytes (stream file)) with
        | Raise e => (Raise e, w)
        | Ok fs' =>
            (Ok (jsonify [("status", JStr "success");
                          ("image_id", JStr image_id);
                          ("message", JStr "Image uploaded successfully.")]),
             with_fs w fs')
        end
  end
  end.

Definition json_of_predictions (d : Dict.t Q) : Json :=
  JDict d.

(** Lines 80-87 of [predict]: the summary and the recommendation. *)
Definition predict_texts (result : PredictionResult) : string * string :=
  let top_label := top_disease result in
  let conf_pct := confidence result * 100 in
  if String.eqb (PyStr.upper top_label) "NORMAL" then
    ("AI suggests no significant abnormalities detected (" ++ Fmt.fixed 1 conf_pct
       ++ "% confidence).",
     "Routine monitoring advised; follow standard screening intervals.")
  else
    ("AI suggests " ++ top_label ++ " with " ++ Fmt.fixed 1 conf_pct ++ "% confidence.",
     "Recommend ophthalmology evaluation and correlation with clinical findings.").

(** The view function [predict] of [app.py], named apart from the model's
    [predict]. *)
Definition predict_handler (ext : Externals) (cfg : Config) (image_id : string)
    (w : World) : result Response * World :=
  match find_image_path_by_id (fs w) image_id (UPLOAD_FOLDER cfg) with
  | Raise e => (Raise e, w)
  | Ok None => (abort 404 "Image not found.", w)
  | Ok (Some image_path) =>
      let model_path := MODEL_PATH cfg in
      match predict_oct ext image_path model_path (Some CLASS_NAMES) w with
      | (Raise e, w1) => (Raise e, w1)
      | (Ok result, w1) =>
          let (summary_text, recommendation_text) := predict_texts result in
          (Ok (jsonify [("image_id", JStr image_id);
                        ("predictions", json_of_predictions (predictions result));
                        ("top_disease", JStr (top_disease result));
                        ("confidence", JNum (confidence result));
                        ("summary", JStr summary_text);
                        ("recommendation", JStr recommendation_text)]),
           w1)
      end
  end.

Definition retinal_layer_thickness_mask : list (string * Q) :=
  [("rnfl", 764 # 10); ("gcl", 319 # 10); ("ipl", 217 # 10);
   ("opl", 194 # 10); ("inl", 181 # 10); ("onl", 852 # 10)].

Definition mask (cfg : Config) (request : Request) (image_id : string)
    (w : World) : result Response * World :=
  let base :=
    if negb (String.eqb (SERVER_BASE_URL cfg) "")
    then PyStr.rstrip "/" (SERVER_BASE_URL cfg)
    else PyStr.rstrip "/" (host_url request) in
  let overlay_mask_url := base ++ "/results/result.jpg" in
  (Ok (jsonify [("image_id", JStr image_id);
                ("overlay_mask_url", JStr overlay_mask_url);
                ("retinal_layer_thickness",
                 JDict retinal_layer_thickness_mask);
                ("notes", JStr "RNFL thinning detected, consistent with glaucoma risk.")]),
   w).

Definition retinal_layer_thickness_report : list (string * Q) :=
  [("RNFL", 764 # 10); ("GCL", 319 # 10); ("IPL", 217 # 10);
   ("OPL", 194 # 10); ("INL", 181 # 10); ("ONL", 852 # 10)].

Record ReportData : Type := {
  d_image_id : string;
  d_predictions : Dict.t Q;
  d_top_disease : string;
  d_confidence : Q;
  d_generated_at : string;
  d_retinal_layer_thickness : list (string * Q)
}.

(** Lines 182-188 of [generate_pdf_report]. *)
Definition report_texts (data : ReportData) : string * string :=
  let conf_pct := d_confidence data * 100 in
  if String.eqb (PyStr.upper (d_top_disease data)) "NORMAL" then
    ("AI suggests no significant abnormalities detected (" ++ Fmt.fixed 1 conf_pct
       ++ "% confidence).",
     "Routine monitoring advised; follow standard screening intervals.")
  else
    ("AI suggests " ++ d_top_disease data ++ " with " ++ Fmt.fixed 1 conf_pct
       ++ "% confidence.",
     "Recommend ophthalmology evaluation and correlation with clinical findings.").

Definition disease_full_name : Dict.t string :=
  [("AMD", "AMD (Age-Related Macular Degeneration)");
   ("CNV", "CNV (Choroidal Neovascularization)");
   ("CSR", "CSR (Central Serous Retinopathy)");
   ("DME", "DME (Diabetic Macular Edema)");
   ("DR", "DR (Diabetic Retinopathy)");
   ("DRUSEN", "DRUSEN (Diabetic Retinopathy with Uveitis)");
   ("MH", "MH (Macular Hole)");
   ("NORMAL", "NORMAL (Normal)")].

(** The loop that fills [pred_rows], after its header row. *)
Fixpoint pred_rows_loop (items : list (string * Q)) (pred_rows : list (list Cell))
  : result (list (list Cell)) :=
  match items with
  | [] => Ok pred_rows
  | (disease, prob) :: rest =>
      (full <- Dict.getitem disease_full_name disease ;;
       pred_rows_loop rest
         (pred_rows ++ [[CText full; CText (Fmt.fixed 2 (prob * 100) ++ "%")]])%list)%result
  end.

Definition pred_rows_of (preds : Dict.t Q) : result (list (list Cell)) :=
  pred_rows_loop preds [[CText "Disease"; CText "Probability"]].

Definition th_rows_of (thickness : list (string * Q)) : list (list Cell) :=
  [CText "Layer"; CText "Thickness (µm)"]
    :: map (fun lv => [CText (fst lv); CText (Fmt.repr (snd lv))]) thickness.

(** [_safe_image]: the image flowable, or [None] when building it raises. *)
Definition _safe_image (w : World) (path : string) : option Cell :=
  if Fs.exists_file (fs w) path then Some (CImage path) else None.

Definition or_else (c : option Cell) (alt : Cell) : Cell :=
  match c with Some x => x | None => alt end.

Definition is_some {A : Type} (o : option A) : bool :=
  match o with Some _ => true | None => false end.

(** [generate_pdf_report] from the line that prepares [data] on: the
    report of a prediction result. [now] is [datetime.now()], formatted.
    The document is the list of flowables handed to [doc.build], which is
    taken to render them; what the layout library itself can raise while
    parsing paragraph markup or rendering an image stays outside the
    model. *)
Definition build_report (cfg : Config) (now : string) (image_id image_path : string)
    (res : PredictionResult) (w1 : World) : result Response * World :=
  let data :=
    {| d_image_id := image_id;
       d_predictions := predictions res;
       d_top_disease := top_disease res;
       d_confidence := confidence res;
       d_generated_at := now;
       d_retinal_layer_thickness := retinal_layer_thickness_report |} in
  let pdf_path := OsPath.join (REPORTS_FOLDER cfg) (image_id ++ "_report.pdf") in
  let elements :=
    [Paragraph "OCT Diagnostic Report" "Title";
     Paragraph "Generated using AI-assisted retinal imaging analysis" "Italic";
     Spacer 1 12;
     Paragraph ("Scan ID: <b>" ++ d_image_id data ++ "</b>") "Normal";
     Paragraph ("Generated: " ++ d_generated_at data) "Normal";
     Spacer 1 18] in
  let (summary_text, recommendation_text) := report_texts data in
  let elements := (elements ++
    [Paragraph "Summary" "Heading3";
     Paragraph summary_text "BodyText";
     Spacer 1 6;
     Paragraph "Recommendation" "Heading3";
     Paragraph recommendation_text "BodyText";
     Spacer 1 18])%list in
  let mask_candidate_1 := OsPath.join (RESULTS_FOLDER cfg) (image_id ++ "_overlay.jpg") in
  let mask_candidate_2 := OsPath.join (RESULTS_FOLDER cfg) "result.jpg" in
  let mask_path :=
    if Fs.exists_file (fs w1) mask_candidate_1 then Some mask_candidate_1
    else if Fs.exists_file (fs w1) mask_candidate_2 then Some mask_candidate_2
    else None in
  let input_img_flow := _safe_image w1 image_path in
  let mask_img_flow :=
    match mask_path with Some p => _safe_image w1 p | None => None end in
  let elements :=
    if (is_some input_img_flow || is_some mask_img_flow)%bool then
      (elements ++
        [Paragraph "Images" "Heading3";
         Table [[or_else input_img_flow (CParagraph "Input image unavailable" "BodyText");
                 or_else mask_img_flow (CParagraph "Mask image unavailable" "BodyText")]];
         Spacer 1 18])%list
    else elements in
  let elements := (elements ++ [Paragraph "Disease Probability Analysis" "Heading3"])%list in
  match pred_rows_of (d_predictions data) with
  | Raise e => (Raise e, w1)
  | Ok pred_rows =>
      let elements := (elements ++ [Table pred_rows; Spacer 1 18])%list in
      let elements := (elements ++
        [Paragraph "Retinal Layer Thickness (µm)" "Heading3";
         Table (th_rows_of (d_retinal_layer_thickness data));
         Spacer 1 24;
         Paragraph "This report is automatically generated and intended for clinical review assistance. It should not be used as the sole basis for diagnosis." "BodyText"])%list in
      let footer_text := "AI generated • " ++ d_generated_at data in
      match Fs.write (fs w1) pdf_path (Pdf "OCT Diagnostic Report" elements footer_text) with
      | Raise e => (Raise e, w1)
      | Ok fs' =>
          (Ok (send_file pdf_path "application/pdf" ("report_" ++ image_id ++ ".pdf")),
           with_fs w1 fs')
      end
  end.

Definition generate_pdf_report (ext : Externals) (cfg : Config) (now : string)
    (image_id : string) (w : World) : result Response * World :=
  match find_image_path_by_id (fs w) image_id (UPLOAD_FOLDER cfg) with
  | Raise e => (Raise e, w)
  | Ok None => (abort 404 "Image not found.", w)
  | Ok (Some image_path) =>
      let model_path := MODEL_PATH cfg in
      match predict_oct ext image_path model_path (Some CLASS_NAMES) w with
      | (Raise e, w1) => (Raise e, w1)
      | (Ok result, w1) => build_report cfg now image_id image_path result w1
      end
  end.

(* ------------------------------------------------------------------ *)
(** ** [test.py] *)

(** The script loads its model when it is imported. *)
Definition test_model (ext : Externals) (w : World) : result Model :=
  load_model ext w "best_oct_classifier_ft.h5".

Definition test_class_names : list string :=
  ["AMD"; "CNV"; "CSR"; "DME"; "DR"; "DRUSEN"; "MH"; "NORMAL"].

(** [predict_oct] of [test.py], over the model and the class names of the
    module. *)
Definition test_predict_oct (ext : Externals) (model : Model) (image_path : string)
    (w : World) : result PredictionResult :=
  (img <- load_img ext w image_path (299, 299)%nat ;;
   let x := img_to_array img in
   let x := expand_dims x in
   let x := preprocess_input x in
   let probs := predict model x in
   top_idx <- np_argmax probs ;;
   preds <- predictions_dict test_class_names probs ;;
   top <- py_index test_class_names top_idx ;;
   conf <- py_index probs top_idx ;;
   Ok {| predictions := preds; top_disease := top; confidence := conf |})%result.

(* ================================================================== *)
(** * Vocabulary of the properties and sample inputs *)

Definition round_trip_fs : FS :=
  [("/srv/uploads",
    [("oct_0000aaaa_old.png", Bytes "a");
     ("oct_12ab34cd_scan.png", Bytes "b");
     ("oct_12ab34cd_zzz.png", Bytes "c")])].

Definition is_hex_lower (a : ascii) : bool :=
  let n := nat_of_ascii a in
  ((48 <=? n) && (n <=? 57) || (97 <=? n) && (n <=? 102))%nat.

(** The regular expression [^oct_[0-9a-f]{8}$]. *)
Definition matches_id_pattern (s : string) : bool :=
  match s with
  | String "o" (String "c" (String "t" (String "_" rest))) =>
      (String.length rest =? 8)%nat && forallb is_hex_lower (PyStr.chars rest)
  | _ => false
  end.

(** The hexadecimal digit number [j] (from the right) of [u], and the 32
    bits of [u] that the first eight of its 32 digits print. *)
Definition nibble (u : N) (j : nat) : N :=
  N.land (N.shiftr u (4 * N.of_nat j)) 15.

Definition top32 (u : N) : N := N.land (N.shiftr u 96) (N.ones 32).

Definition hex_value (a : ascii) : N :=
  let n := N.of_nat (nat_of_ascii a) in
  if (n <? 58)%N then (n - 48)%N else (n - 87)%N.

(** Successive calls of [get_model], each with the libraries and the path
    it is given. *)
Fixpoint get_model_calls (calls : list (Externals * string)) (w : World)
  : list (result Model) * World :=
  match calls with
  | [] => ([], w)
  | (ext, model_path) :: rest =>
      let (r, w1) := get_model ext model_path w in
      let (rs, w2) := get_model_calls rest w1 in
      (r :: rs, w2)
  end.

Definition cache_demo_model : Model := {| predict := fun _ => [9 # 10; 1 # 10] |}.

Definition cache_demo_ext : Externals :=
  {| secure_filename := fun s => s;
     decode_image := fun _ _ => Some [0; 255];
     parse_model := fun _ => Some cache_demo_model |}.

Definition cache_demo_empty : World :=
  {| fs := [("/srv", [])]; _model := None; load_log := [] |}.

Definition cache_demo_restored (w : World) : World :=
  with_fs w [("/srv", [("m.h5", Bytes "weights")])].

Definition class_names_or_default (class_names : option (list string)) : list string :=
  match class_names with None => DEFAULT_CLASS_NAMES | Some l => l end.

Definition infer_demo_world : World :=
  {| fs := [("/srv", [("m.h5", Bytes "weights")]);
            ("/srv/uploads", [("oct_12ab34cd_scan.png", Bytes "pixels")])];
     _model := None; load_log := [] |}.

Definition infer_demo_loaded : World :=
  {| fs := fs infer_demo_world; _model := Some cache_demo_model;
     load_log := ["/srv/m.h5"] |}.

(** A folder path whose last character is not the separator. *)
Definition proper_folder (folder : string) : Prop :=
  exists x c, folder = x ++ String c "" /\ c <> "/"%char.

(** A stand-in for werkzeug's [secure_filename]: keeps ASCII letters,
    digits, dots, underscores and dashes. *)
Definition demo_keep (a : ascii) : bool :=
  (PyStr.is_upper a || PyStr.is_lower a ||
   ((48 <=? nat_of_ascii a) && (nat_of_ascii a <=? 57))%nat ||
   Ascii.eqb a "." || Ascii.eqb a "_" || Ascii.eqb a "-")%bool.

Fixpoint demo_secure_filename (s : string) : string :=
  match s with
  | EmptyString => EmptyString
  | String a s' =>
      if demo_keep a then String a (demo_secure_filename s')
      else demo_secure_filename s'
  end.

Definition upload_demo_ext : Externals :=
  {| secure_filename := demo_secure_filename;
     decode_image := fun _ _ => Some [0; 255];
     parse_model := fun _ => Some cache_demo_model |}.

Definition upload_demo_cfg : Config := {| BASE_DIR := "/srv"; SERVER_BASE_URL := "" |}.


Definition upload_demo_request : Request :=
  {| files := [("image", {| filename := "../my scan.PNG"; stream := "pixels" |})];
     content_length := 213;
     host_url := "http://localhost:5000/" |}.

(** The exceptions inference can end with. *)
Definition inference_exn (e : exn) : bool :=
  match e with
  | IndexError | ValueError | FileNotFoundError _ | ExternalError _ => true
  | KeyError _ | FileExistsError _ | HTTPException _ _ => false
  end.

Definition ok_or_inference {A : Type} (r : result A) : bool :=
  match r with Raise e => inference_exn e | Ok _ => true end.

(** The names the upload folder lists; none when it is not a directory. *)
Definition upload_listing (cfg : Config) (w : World) : list string :=
  match Dict.get (fs w) (UPLOAD_FOLDER cfg) with
  | Some entries => map fst entries
  | None => []
  end.

Definition predict_demo_ext : Externals :=
  {| secure_filename := demo_secure_filename;
     decode_image := fun _ _ => None;
     parse_model := fun _ => Some cache_demo_model |}.

Definition predict_demo_world : World :=
  {| fs := [("/srv", [("best_oct_classifier_ft.h5", Bytes "weights")]);
            ("/srv/uploads", [("oct_12ab34cd_scan.png", Bytes "not an image")])];
     _model := None; load_log := [] |}.

(** The [data] dictionary that [generate_pdf_report] prepares. *)
Definition report_data (image_id now : string) (res : PredictionResult) : ReportData :=
  {| d_image_id := image_id;
     d_predictions := predictions res;
     d_top_disease := top_disease res;
     d_confidence := confidence res;
     d_generated_at := now;
     d_retinal_layer_thickness := retinal_layer_thickness_report |}.

Definition unknown_label (label : string) : bool := negb (set_mem label CLASS_NAMES).

Definition expanded_row (item : string * Q) (row : list Cell) : Prop :=
  exists full,
    Dict.get disease_full_name (fst item) = Some full /\
    row = [CText full; CText (Fmt.fixed 2 (snd item * 100) ++ "%")].

Definition collision_demo_world : World :=
  {| fs := [("/srv/uploads", [("oct_00000000_first.png", Bytes "first")])];
     _model := None; load_log := [] |}.

Definition tie_demo_model : Model := {| predict := fun _ => [2 # 10; 4 # 10; 4 # 10] |}.

Definition tie_demo_world : World :=
  {| fs := [("/srv/uploads", [("oct_12ab34cd_scan.png", Bytes "pixels")])];
     _model := Some tie_demo_model; load_log := ["/srv/m.h5"] |}.

Definition tie_demo_result : PredictionResult :=
  {| predictions := [("AMD", 2 # 10); ("CNV", 4 # 10); ("CSR", 4 # 10)];
     top_disease := "CNV"; confidence := 4 # 10 |}.

Definition report_demo_model : Model :=
  {| predict := fun _ => [1 # 100; 2 # 100; 3 # 100; 4 # 100;
                          5 # 100; 6 # 100; 7 # 100; 72 # 100] |}.

Definition report_demo_ext : Externals :=
  {| secure_filename := demo_secure_filename;
     decode_image := fun _ _ => Some [0; 255];
     parse_model := fun _ => Some report_demo_model |}.

Definition report_demo_world : World :=
  {| fs := [("/srv", [("best_oct_classifier_ft.h5", Bytes "weights")]);
            ("/srv/uploads", [("oct_12ab34cd_scan.png", Bytes "pixels")]);
            ("/srv/results", []);
            ("/srv/reports", [("oct_0000aaaa_report.pdf", Bytes "other");
                              ("oct_12ab34cd_report.pdf", Bytes "stale")])];
     _model := None; load_log := [] |}.

Definition response_fields (outcome : result Response * World) : list (string * Json) :=
  match outcome with
  | (Ok (jsonify fields), _) => fields
  | _ => []
  end.

(** A string of ASCII characters, on which [PyStr.lower] and [PyStr.upper]
    are Python's [str.lower] and [str.upper]. *)
Definition is_ascii_string (s : string) : bool :=
  forallb (fun a => (nat_of_ascii a <? 128)%nat) (PyStr.chars s).


(** The two-way branch as the specification words it: on the top label
    being ["NORMAL"]. *)
Definition spec_summary_texts (res : PredictionResult) : string * string :=
  if String.eqb (top_disease res) "NORMAL" then
    ("AI suggests no significant abnormalities detected ("
       ++ Fmt.fixed 1 (confidence res * 100) ++ "% confidence).",
     "Routine monitoring advised; follow standard screening intervals.")
  else
    ("AI suggests " ++ top_disease res ++ " with "
       ++ Fmt.fixed 1 (confidence res * 100) ++ "% confidence.",
     "Recommend ophthalmology evaluation and correlation with clinical findings.").

(** A result whose top label is written in lower case, as a class-name
    list other than the configured one can give. *)
Definition lowercase_demo_result : PredictionResult :=
  {| predictions := [("normal", 9 # 10); ("dme", 1 # 10)];
     top_disease := "normal"; confidence := 9 # 10 |}.

Definition disease_demo_result : PredictionResult :=
  {| predictions := [("DME", 9134 # 10000); ("NORMAL", 866 # 10000)];
     top_disease := "DME"; confidence := 9134 # 10000 |}.

(* ================================================================== *)
(** * Properties *)

(* ------------------------------------------------------------------ *)
(** ** Strings and paths *)

Module PyStrFacts.
Import PyStr.

Lemma split_last_none (c : ascii) (s : string) :
  split_last c s = None <-> contains c s = false.
Proof.
  induction s as [|a s IH]; simpl.
  - split; reflexivity.
  - destruct (split_last c s) as [[b t]|] eqn:E.
    + split; [discriminate|].
      intro H. apply orb_false_iff in H as [_ H].
      apply IH in H. discriminate.
    + destruct (Ascii.eqb a c) eqn:Ea; simpl.
      * split; discriminate.
      * split; intros _; [apply IH|]; reflexivity.
Qed.

Lemma split_last_some (c : ascii) (s b t : string) :
  split_last c s = Some (b, t) ->
  s = b ++ String c t /\ contains c t = false.
Proof.
  revert b t. induction s as [|a s IH]; simpl; intros b t H.
  - discriminate.
  - destruct (split_last c s) as [[b' t']|] eqn:E.
    + inversion H; subst. destruct (IH _ _ eq_refl) as [-> Ht].
      split; [reflexivity|assumption].
    + destruct (Ascii.eqb a c) eqn:Ea; [|discriminate].
      inversion H; subst. apply Ascii.eqb_eq in Ea. subst a.
      split; [reflexivity|]. apply split_last_none. assumption.
Qed.

Lemma split_last_app (c : ascii) (b t : string) :
  contains c t = false ->
  split_last c (b ++ String c t) = Some (b, t).
Proof.
  intro Ht. induction b as [|a b IH]; simpl.
  - apply split_last_none in Ht. rewrite Ht, Ascii.eqb_refl. reflexivity.
  - rewrite IH. reflexivity.
Qed.

Lemma contains_app (c : ascii) (a b : string) :
  contains c (a ++ b) = contains c a || contains c b.
Proof.
  induction a as [|x a IH]; simpl; [reflexivity|].
  rewrite IH, orb_assoc. reflexivity.
Qed.

Lemma startswith_app (p s : string) : startswith p (p ++ s) = true.
Proof.
  induction p as [|a p IH]; simpl; [reflexivity|].
  rewrite Ascii.eqb_refl. assumption.
Qed.

Lemma startswith_inv (p s : string) :
  startswith p s = true -> exists r, s = p ++ r.
Proof.
  revert s. induction p as [|a p IH]; intros s H; simpl in *.
  - exists s. reflexivity.
  - destruct s as [|b s]; [discriminate|].
    apply andb_true_iff in H as [Hab H].
    apply Ascii.eqb_eq in Hab. subst b.
    destruct (IH _ H) as [r ->]. exists r. reflexivity.
Qed.

Lemma append_assoc (a b c : string) : (a ++ b) ++ c = a ++ (b ++ c).
Proof.
  induction a as [|x a IH]; simpl; [reflexivity|]. rewrite IH. reflexivity.
Qed.

Lemma append_nil_r (a : string) : a ++ "" = a.
Proof.
  induction a as [|x a IH]; simpl; [reflexivity|]. rewrite IH. reflexivity.
Qed.

Lemma chars_app (a b : string) : chars (a ++ b) = (chars a ++ chars b)%list.
Proof.
  unfold chars. induction a as [|x a IH]; simpl; [reflexivity|].
  rewrite IH. reflexivity.
Qed.

Lemma of_list_app (l1 l2 : list ascii) :
  string_of_list_ascii (l1 ++ l2) = string_of_list_ascii l1 ++ string_of_list_ascii l2.
Proof.
  induction l1 as [|x l1 IH]; simpl; [reflexivity|]. rewrite IH. reflexivity.
Qed.

(** A string that ends with the one-character string [c] is some string
    followed by [c]. *)
Lemma endswith_char_inv (c : ascii) (s : string) :
  endswith (String c "") s = true -> exists s', s = s' ++ String c "".
Proof.
  unfold endswith. simpl. intro H.
  destruct (string_of_list_ascii (rev (chars s))) as [|b r] eqn:E; [discriminate|].
  simpl in H. rewrite andb_true_r in H. apply Ascii.eqb_eq in H. subst b.
  exists (string_of_list_ascii (rev (chars r))).
  apply (f_equal list_ascii_of_string) in E.
  rewrite list_ascii_of_string_of_list_ascii in E. simpl in E.
  apply (f_equal (@rev ascii)) in E. rewrite rev_involutive in E. simpl in E.
  rewrite <- (string_of_list_ascii_of_string s). fold (chars s). rewrite E.
  rewrite of_list_app. reflexivity.
Qed.

Lemma endswith_char_app (c : ascii) (s : string) :
  endswith (String c "") (s ++ String c "") = true.
Proof.
  unfold endswith. rewrite chars_app, rev_app_distr. simpl.
  rewrite Ascii.eqb_refl. reflexivity.
Qed.

End PyStrFacts.

Module OsPathFacts.
Import PyStr PyStrFacts OsPath.

(** A name without separator is the basename of its join with any folder. *)
Lemma basename_join (folder name : string) :
  contains sep name = false ->
  basename (join folder name) = name.
Proof.
  intro Hn. unfold join.
  assert (Hs : startswith "/" name = false).
  { destruct name as [|a n]; [reflexivity|]. cbn [startswith contains] in *.
    apply orb_false_iff in Hn as [Ha _]. unfold sep in Ha.
    rewrite Ascii.eqb_sym, Ha. reflexivity. }
  rewrite Hs. unfold basename, sep in *.
  destruct (String.eqb folder "") eqn:Ee; simpl.
  - apply String.eqb_eq in Ee. subst folder. simpl.
    apply split_last_none in Hn. rewrite Hn. reflexivity.
  - destruct (endswith "/" folder) eqn:Ew.
    + apply endswith_char_inv in Ew as [f' ->].
      rewrite append_assoc.
      change (f' ++ "/" ++ name) with (f' ++ String "/" name).
      rewrite (split_last_app "/" f' name Hn). reflexivity.
    + change (folder ++ "/" ++ name) with (folder ++ String "/" name).
      rewrite (split_last_app "/" folder name Hn). reflexivity.
Qed.

End OsPathFacts.

(* ------------------------------------------------------------------ *)
(** ** Storage helper *)

Lemma set_mem_In (x : string) (s : list string) :
  set_mem x s = true <-> In x s.
Proof.
  unfold set_mem. rewrite existsb_exists. split.
  - intros [y [Hy E]]. apply String.eqb_eq in E. subst. assumption.
  - intro H. exists x. split; [assumption|apply String.eqb_refl].
Qed.

(** Index 1 of the split always exists behind the guard of
    [is_allowed_file]. *)
Lemma rsplit1_index_1 (f : string) :
  PyStr.contains "." f = true ->
  exists b t, PyStr.rsplit1 "." f = [b; t].
Proof.
  intro H. unfold PyStr.rsplit1.
  destruct (PyStr.split_last "." f) as [[b t]|] eqn:E.
  - exists b, t. reflexivity.
  - apply PyStrFacts.split_last_none in E. congruence.
Qed.

Lemma is_allowed_file_iff (f : string) (exts : list string) :
  is_allowed_file f exts = true <->
  exists pre suf,
    f = pre ++ "." ++ suf /\ PyStr.contains "." suf = false /\
    In (PyStr.lower suf) exts.
Proof.
  unfold is_allowed_file, PyStr.rsplit1. split.
  - destruct (PyStr.contains "." f) eqn:Hc; simpl; [|discriminate].
    destruct (PyStr.split_last "." f) as [[b t]|] eqn:E.
    + simpl. intro H. apply set_mem_In in H.
      apply PyStrFacts.split_last_some in E as [-> Ht].
      exists b, t. auto.
    + apply PyStrFacts.split_last_none in E. congruence.
  - intros (pre & suf & -> & Hs & Hin).
    change (pre ++ "." ++ suf) with (pre ++ String "." suf).
    rewrite PyStrFacts.contains_app. simpl. rewrite orb_true_r. simpl.
    rewrite (PyStrFacts.split_last_app "." pre suf Hs). simpl.
    apply set_mem_In. assumption.
Qed.

(** C4. [is_allowed_file filename ALLOWED_EXTENSIONS] is true exactly when
    the filename splits as [pre ++ "." ++ suf] with no ['.'] in [suf] (so
    [suf] is what follows the last ['.']) and the lowercased [suf] is one of
    png, jpg, jpeg, dcm; and a filename without ['.'] is never allowed. *)
Theorem is_allowed_file_spec : forall filename : string,
  (is_allowed_file filename ALLOWED_EXTENSIONS = true <->
   exists pre suf,
     filename = pre ++ "." ++ suf /\ PyStr.contains "." suf = false /\
     In (PyStr.lower suf) ["png"; "jpg"; "jpeg"; "dcm"]) /\
  (PyStr.contains "." filename = true \/
   is_allowed_file filename ALLOWED_EXTENSIONS = false).
Proof.
  intro filename. split.
  - apply is_allowed_file_iff.
  - destruct (PyStr.contains "." filename) eqn:Hc; [left; reflexivity|right].
    unfold is_allowed_file. rewrite Hc. reflexivity.
Qed.

(** The loop of [find_image_path_by_id] returns the first listed name with
    the prefix, when some listed name has it. *)
Lemma first_with_prefix_first (prefix n : string) (names : list string) :
  In n names -> PyStr.startswith prefix n = true ->
  exists name before after,
    first_with_prefix prefix names = Some name /\
    names = (before ++ name :: after)%list /\
    Forall (fun m => PyStr.startswith prefix m = false) before /\
    PyStr.startswith prefix name = true.
Proof.
  induction names as [|m names IH]; intros Hin Hp; [destruct Hin|].
  simpl. destruct (PyStr.startswith prefix m) eqn:Em.
  - exists m, [], names. repeat split; auto.
  - destruct Hin as [->|Hin]; [congruence|].
    destruct (IH Hin Hp) as (name & before & after & Hf & -> & Hb & Hn).
    exists name, (m :: before), after. repeat split; auto.
Qed.

Lemma first_with_prefix_none (prefix : string) (names : list string) :
  first_with_prefix prefix names = None <->
  Forall (fun m => PyStr.startswith prefix m = false) names.
Proof.
  induction names as [|m names IH]; simpl.
  - split; auto.
  - destruct (PyStr.startswith prefix m) eqn:Em.
    + split; [discriminate|]. intro H. inversion H; congruence.
    + rewrite IH. split; intro H; [constructor; assumption|inversion H; assumption].
Qed.

Lemma build_saved_filename_prefix (secure : string -> string) (X orig : string) :
  PyStr.startswith (X ++ "_") (build_saved_filename secure X orig) = true.
Proof. unfold build_saved_filename. apply PyStrFacts.startswith_app. Qed.

(** C3. When the upload directory lists a file named
    [build_saved_filename X original] (directory entries never contain the
    path separator), [find_image_path_by_id X] returns a path, not [None];
    its basename starts with [X ++ "_"], and it is the first entry of the
    listing that has this prefix. *)
Theorem find_image_path_by_id_round_trip :
  forall (secure : string -> string) (fs : FS) (X original upload_folder : string)
         (entries : Dir),
    Dict.get fs upload_folder = Some entries ->
    Forall (fun n => PyStr.contains "/" n = false) (map fst entries) ->
    In (build_saved_filename secure X original) (map fst entries) ->
    exists name before after,
      find_image_path_by_id fs X upload_folder
        = Ok (Some (OsPath.join upload_folder name)) /\
      PyStr.startswith (X ++ "_")
        (OsPath.basename (OsPath.join upload_folder name)) = true /\
      map fst entries = (before ++ name :: after)%list /\
      Forall (fun m => PyStr.startswith (X ++ "_") m = false) before.
Proof.
  intros secure fs X original folder entries Hdir Hwf Hin.
  destruct (first_with_prefix_first (X ++ "_") _ _ Hin
              (build_saved_filename_prefix secure X original))
    as (name & before & after & Hf & Hsplit & Hb & Hn).
  exists name, before, after.
  assert (Hname : PyStr.contains "/" name = false).
  { rewrite Forall_forall in Hwf. apply Hwf. rewrite Hsplit.
    apply in_or_app. right. left. reflexivity. }
  repeat split; auto.
  - unfold find_image_path_by_id, Fs.isdir, Fs.listdir.
    rewrite Hdir. simpl. rewrite Hf. reflexivity.
  - rewrite (OsPathFacts.basename_join folder name Hname). assumption.
Qed.

Lemma find_image_path_by_id_round_trip_witness :
  exists name before after,
    find_image_path_by_id round_trip_fs "oct_12ab34cd" "/srv/uploads"
      = Ok (Some (OsPath.join "/srv/uploads" name)) /\
    PyStr.startswith ("oct_12ab34cd" ++ "_")
      (OsPath.basename (OsPath.join "/srv/uploads" name)) = true /\
    ["oct_0000aaaa_old.png"; "oct_12ab34cd_scan.png"; "oct_12ab34cd_zzz.png"]
      = (before ++ name :: after)%list /\
    Forall (fun m => PyStr.startswith ("oct_12ab34cd" ++ "_") m = false) before.
Proof.
  apply (find_image_path_by_id_round_trip (fun s => s) round_trip_fs
           "oct_12ab34cd" "scan.png" "/srv/uploads"
           [("oct_0000aaaa_old.png", Bytes "a");
            ("oct_12ab34cd_scan.png", Bytes "b");
            ("oct_12ab34cd_zzz.png", Bytes "c")]).
  - reflexivity.
  - repeat constructor.
  - simpl. right. left. reflexivity.
Defined.

(* ------------------------------------------------------------------ *)
(** ** Image identifiers *)

Lemma hex_digit_is_hex (n : N) : is_hex_lower (hex_digit n) = true.
Proof.
  destruct n as [|p]; [reflexivity|].
  do 4 (destruct p as [p|p|]; try reflexivity).
Qed.

Lemma hex_digits_length (k : nat) (n : N) : String.length (hex_digits k n) = k.
Proof. induction k as [|k IH]; simpl; [reflexivity|]. rewrite IH. reflexivity. Qed.

Lemma hex_digits_hex (k : nat) (n : N) :
  forallb is_hex_lower (PyStr.chars (hex_digits k n)) = true.
Proof.
  induction k as [|k IH]; [reflexivity|].
  cbn [hex_digits PyStr.chars list_ascii_of_string forallb].
  rewrite hex_digit_is_hex. exact IH.
Qed.

Lemma take_length (n : nat) (s : string) :
  String.length (PyStr.take n s) = Nat.min n (String.length s).
Proof.
  revert s. induction n as [|n IH]; intros [|a s]; simpl; auto.
Qed.

Lemma take_forallb (P : ascii -> bool) (n : nat) (s : string) :
  forallb P (PyStr.chars s) = true ->
  forallb P (PyStr.chars (PyStr.take n s)) = true.
Proof.
  revert s. induction n as [|n IH]; intros [|a s]; simpl; auto.
  intro H. apply andb_true_iff in H as [Ha Hs].
  rewrite Ha. apply IH. exact Hs.
Qed.

Lemma generate_image_id_pattern (random_bits : N) :
  matches_id_pattern (generate_image_id random_bits) = true.
Proof.
  unfold generate_image_id, uuid_hex.
  pose proof (take_length 8 (hex_digits 32 (uuid4 random_bits))) as Hl.
  pose proof (take_forallb is_hex_lower 8 _ (hex_digits_hex 32 (uuid4 random_bits))) as Hh.
  rewrite hex_digits_length in Hl.
  generalize dependent (PyStr.take 8 (hex_digits 32 (uuid4 random_bits))).
  intros t Hl Hh. cbn [append matches_id_pattern].
  rewrite Hl, Hh. reflexivity.
Qed.

Lemma hex_digits_S (k : nat) (n : N) :
  hex_digits (S k) n = String (hex_digit (nibble n k)) (hex_digits k n).
Proof. reflexivity. Qed.

Lemma nibble_lt (u : N) (j : nat) : (nibble u j < 16)%N.
Proof.
  unfold nibble. change 15%N with (N.ones 4). rewrite N.land_ones.
  apply N.mod_lt. discriminate.
Qed.

Lemma hex_value_digit (n : N) : (n < 16)%N -> hex_value (hex_digit n) = n.
Proof.
  intro H. destruct n as [|p]; [reflexivity|].
  do 4 (destruct p as [p|p|]; try reflexivity); lia.
Qed.

Lemma hex_digit_inj (a b : N) :
  (a < 16)%N -> (b < 16)%N -> hex_digit a = hex_digit b -> a = b.
Proof.
  intros Ha Hb E. rewrite <- (hex_value_digit a Ha), <- (hex_value_digit b Hb), E.
  reflexivity.
Qed.

(** The first [n] of [n + k] digits agree exactly when the digits number
    [k] to [n + k - 1] agree. *)
Lemma take_hex_digits_eq (n k : nat) (u1 u2 : N) :
  PyStr.take n (hex_digits (n + k) u1) = PyStr.take n (hex_digits (n + k) u2) <->
  (forall j, (k <= j < n + k)%nat -> nibble u1 j = nibble u2 j).
Proof.
  induction n as [|n IH].
  - split; [intros _ j Hj; lia|reflexivity].
  - change (S n + k)%nat with (S (n + k)). rewrite !hex_digits_S.
    cbn [PyStr.take]. split.
    + intros E j Hj. injection E as Eh Et.
      apply hex_digit_inj in Eh; try apply nibble_lt.
      destruct (Nat.eq_dec j (n + k)) as [->|Hne]; [exact Eh|].
      apply IH; [exact Et|lia].
    + intros H. f_equal.
      * rewrite (H (n + k)%nat); [reflexivity|lia].
      * apply IH. intros j Hj. apply H. lia.
Qed.

Lemma testbit_15 (b : N) : N.testbit 15 b = (b <? 4)%N.
Proof.
  change 15%N with (N.ones 4). destruct (N.ltb_spec b 4) as [H|H].
  - apply N.ones_spec_low. exact H.
  - apply N.ones_spec_high. exact H.
Qed.

Lemma nibble_bits (u : N) (j : nat) (b : N) :
  N.testbit (nibble u j) b = N.testbit u (b + 4 * N.of_nat j) && (b <? 4)%N.
Proof.
  unfold nibble. rewrite N.land_spec, N.shiftr_spec', testbit_15. reflexivity.
Qed.

Lemma top32_bits (u : N) (i : N) :
  N.testbit (top32 u) i = N.testbit u (i + 96) && (i <? 32)%N.
Proof.
  unfold top32. rewrite N.land_spec, N.shiftr_spec'. f_equal.
  destruct (N.ltb_spec i 32) as [H|H].
  - apply N.ones_spec_low. exact H.
  - apply N.ones_spec_high. exact H.
Qed.

Lemma top32_eq_nibbles (u1 u2 : N) :
  top32 u1 = top32 u2 <->
  (forall j, (24 <= j < 8 + 24)%nat -> nibble u1 j = nibble u2 j).
Proof.
  split.
  - intros E j Hj. apply N.bits_inj. intro b. rewrite !nibble_bits.
    destruct (N.ltb_spec b 4) as [Hb|Hb]; [|rewrite !andb_false_r; reflexivity].
    rewrite !andb_true_r.
    pose proof (top32_bits u1 (b + 4 * N.of_nat j - 96)) as B1.
    pose proof (top32_bits u2 (b + 4 * N.of_nat j - 96)) as B2.
    replace (b + 4 * N.of_nat j - 96 + 96)%N with (b + 4 * N.of_nat j)%N in B1, B2 by lia.
    assert (Hlt : (b + 4 * N.of_nat j - 96 <? 32)%N = true) by (apply N.ltb_lt; lia).
    rewrite Hlt, andb_true_r in B1, B2. rewrite <- B1, <- B2, E. reflexivity.
  - intros H. apply N.bits_inj. intro i. rewrite !top32_bits.
    destruct (N.ltb_spec i 32) as [Hi|Hi]; [|rewrite !andb_false_r; reflexivity].
    rewrite !andb_true_r.
    pose proof (N.div_mod i 4 ltac:(discriminate)) as Hdm.
    pose proof (N.mod_lt i 4 ltac:(discriminate)) as Hm.
    assert (Hq : (i / 4 < 8)%N) by (apply N.Div0.div_lt_upper_bound; lia).
    set (j := (24 + N.to_nat (i / 4))%nat).
    pose proof (nibble_bits u1 j (i mod 4)) as B1.
    pose proof (nibble_bits u2 j (i mod 4)) as B2.
    assert (Hb : (i mod 4 <? 4)%N = true) by (apply N.ltb_lt; exact Hm).
    rewrite Hb, andb_true_r in B1, B2.
    replace (i mod 4 + 4 * N.of_nat j)%N with (i + 96)%N in B1, B2 by (unfold j; lia).
    rewrite <- B1, <- B2, (H j); [reflexivity|unfold j; lia].
Qed.

Lemma append_inj_l (p a b : string) : p ++ a = p ++ b -> a = b.
Proof.
  induction p as [|c p IH]; simpl; intro H; [exact H|].
  injection H as H. apply IH. exact H.
Qed.

Lemma generate_image_id_eq_iff (r1 r2 : N) :
  generate_image_id r1 = generate_image_id r2 <->
  top32 (uuid4 r1) = top32 (uuid4 r2).
Proof.
  unfold generate_image_id, uuid_hex. rewrite top32_eq_nibbles.
  rewrite <- (take_hex_digits_eq 8 24). change (8 + 24)%nat with 32%nat.
  split; intro H.
  - apply append_inj_l in H. exact H.
  - rewrite H. reflexivity.
Qed.

(** C8 (as stated, it fails): two calls that draw different UUIDs can still
    return the same identifier. *)
Lemma generate_image_id_collision :
  uuid4 0 <> uuid4 1 /\ generate_image_id 0 = generate_image_id 1.
Proof. split; [discriminate|reflexivity]. Qed.

(** C8 (amended). Every value of [generate_image_id] matches
    [^oct_[0-9a-f]{8}$]; two calls return the same value exactly when their
    UUIDs agree on the 32 bits that the first eight hexadecimal digits
    print, so distinct values are not guaranteed. *)
Theorem generate_image_id_spec : forall r1 r2 : N,
  matches_id_pattern (generate_image_id r1) = true /\
  (generate_image_id r1 = generate_image_id r2 <->
   top32 (uuid4 r1) = top32 (uuid4 r2)).
Proof.
  intros r1 r2. split.
  - apply generate_image_id_pattern.
  - apply generate_image_id_eq_iff.
Qed.

(* ------------------------------------------------------------------ *)
(** ** The model cache *)

Lemma get_model_cached (ext : Externals) (model_path : string) (w : World) (m : Model) :
  _model w = Some m -> get_model ext model_path w = (Ok m, w).
Proof. intro H. unfold get_model. rewrite H. reflexivity. Qed.

Lemma get_model_calls_cached (calls : list (Externals * string)) (w : World) (m : Model) :
  _model w = Some m ->
  get_model_calls calls w = (map (fun _ => Ok m) calls, w).
Proof.
  intro H. induction calls as [|[ext p] calls IH]; simpl; [reflexivity|].
  rewrite (get_model_cached ext p w m H), IH. reflexivity.
Qed.

Lemma get_model_empty_log (ext : Externals) (model_path : string) (w : World) :
  _model w = None ->
  load_log (snd (get_model ext model_path w)) = (load_log w ++ [model_path])%list.
Proof.
  intro H. unfold get_model. rewrite H.
  destruct (load_model ext w model_path); reflexivity.
Qed.

(** C5 (as stated, it fails): a failed first load stores nothing, and the
    next call calls [load_model] again; here the model file is missing at
    the first call and present at the second, which loads and returns it. *)
Lemma get_model_retries_after_failure :
  let (r1, w1) := get_model cache_demo_ext "/srv/m.h5" cache_demo_empty in
  let (r2, w2) := get_model cache_demo_ext "/srv/m.h5" (cache_demo_restored w1) in
  r1 = Raise (FileNotFoundError "/srv/m.h5") /\ _model w1 = None /\
  load_log w1 = ["/srv/m.h5"] /\
  r2 = Ok cache_demo_model /\ _model w2 = Some cache_demo_model /\
  load_log w2 = ["/srv/m.h5"; "/srv/m.h5"].
Proof. vm_compute. repeat split; reflexivity. Qed.

(** C5 (amended). [load_model] is called only while the cache is empty. A
    call that returns a model has it cached: every later call, whatever
    path and libraries it is given, returns that same model and leaves the
    world, load log included, unchanged. A call whose load fails caches
    nothing, and the next call calls [load_model] again. *)
Theorem get_model_cache_spec :
  forall (ext : Externals) (model_path : string) (w : World),
    match get_model ext model_path w with
    | (Ok m, w') =>
        _model w' = Some m /\
        load_log w' =
          (match _model w with
           | Some _ => load_log w
           | None => load_log w ++ [model_path]
           end)%list /\
        (forall calls, get_model_calls calls w' = (map (fun _ => Ok m) calls, w'))
    | (Raise e, w') =>
        _model w = None /\ _model w' = None /\
        load_log w' = (load_log w ++ [model_path])%list /\
        (forall ext2 path2,
            load_log (snd (get_model ext2 path2 w')) = (load_log w' ++ [path2])%list)
    end.
Proof.
  intros ext model_path w.
  destruct (get_model ext model_path w) as [[m|e] w'] eqn:E; unfold get_model in E;
    destruct (_model w) as [m0|] eqn:Hm.
  - inversion E; subst. repeat split; auto.
    intro calls. apply get_model_calls_cached. exact Hm.
  - destruct (load_model ext w model_path) as [m1|e1]; inversion E; subst.
    repeat split; auto. intro calls. apply get_model_calls_cached. reflexivity.
  - inversion E.
  - destruct (load_model ext w model_path) as [m1|e1]; inversion E; subst.
    repeat split; auto. intros ext2 path2. apply get_model_empty_log. reflexivity.
Qed.

(* ------------------------------------------------------------------ *)
(** ** Inference *)

Module DictFacts.

Section DictFacts.
Context {V : Type}.
Implicit Types (d : Dict.t V) (k : string) (v : V).

Lemma get_combine_notin (ks : list string) (vs : list V) k :
  ~ In k ks -> Dict.get (combine ks vs) k = None.
Proof.
  revert vs. induction ks as [|k0 ks IH]; intros [|v0 vs] H; simpl; auto.
  destruct (String.eqb_spec k0 k) as [->|Hne].
  - exfalso. apply H. left. reflexivity.
  - apply IH. intro Hin. apply H. right. exact Hin.
Qed.

Lemma set_absent d k v :
  Dict.get d k = None -> Dict.set d k v = (d ++ [(k, v)])%list.
Proof.
  induction d as [|[k0 v0] d IH]; simpl; intro H; [reflexivity|].
  destruct (String.eqb k0 k); [discriminate|]. rewrite (IH H). reflexivity.
Qed.

(** With distinct keys, the entry of the key at position [i] is the value
    at position [i]. *)
Lemma get_combine_nth (ks : list string) (vs : list V) (i : nat) k v :
  NoDup ks -> nth_error ks i = Some k -> nth_error vs i = Some v ->
  Dict.get (combine ks vs) k = Some v.
Proof.
  intros Hnd. revert vs i. induction Hnd as [|k0 ks Hnotin Hnd IH];
    intros vs i Hk Hv; destruct i as [|i]; destruct vs as [|v0 vs];
    simpl in *; try discriminate.
  - inversion Hk; inversion Hv; subst. rewrite String.eqb_refl. reflexivity.
  - destruct (String.eqb_spec k0 k) as [->|Hne].
    + exfalso. apply Hnotin. eapply nth_error_In. exact Hk.
    + eapply IH; eassumption.
Qed.


End DictFacts.

End DictFacts.

Lemma firstn_S_nth {A : Type} (l : list A) (n : nat) (x : A) :
  nth_error l n = Some x -> firstn (S n) l = (firstn n l ++ [x])%list.
Proof.
  revert n. induction l as [|a l IH]; intros [|n] H; simpl in *; try discriminate.
  - inversion H. reflexivity.
  - rewrite (IH n H). reflexivity.
Qed.

Lemma combine_snoc {A B : Type} (l1 : list A) (l2 : list B) (a : A) (b : B) :
  length l1 = length l2 ->
  combine (l1 ++ [a]) (l2 ++ [b]) = (combine l1 l2 ++ [(a, b)])%list.
Proof.
  revert l2. induction l1 as [|x l1 IH]; intros [|y l2] H; simpl in *; try discriminate.
  - reflexivity.
  - rewrite IH; [reflexivity|lia].
Qed.

Lemma NoDup_firstn_notin {A : Type} (l : list A) (n : nat) (x : A) :
  NoDup l -> nth_error l n = Some x -> ~ In x (firstn n l).
Proof.
  intro Hnd. revert n. induction Hnd as [|a l Hnotin Hnd IH]; intros [|n] H; simpl in *;
    try discriminate; auto.
  intros [->|Hin].
  - apply Hnotin. eapply nth_error_In. exact H.
  - exact (IH n H Hin).
Qed.

(** The comprehension over distinct names pairs names and scores by
    position. *)
Lemma predictions_dict_prefix (class_names : list string) (probs : list Q) (n : nat) :
  NoDup class_names -> (n <= length class_names)%nat -> (n <= length probs)%nat ->
  fold_left
    (fun acc i =>
       (d <- acc ;;
        k <- py_index class_names i ;;
        p <- py_index probs i ;;
        Ok (Dict.set d k p))%result)
    (seq 0 n) (Ok [])
  = Ok (combine (firstn n class_names) (firstn n probs)).
Proof.
  intros Hnd. induction n as [|n IH]; intros Hc Hp; [reflexivity|].
  destruct (nth_error class_names n) as [k|] eqn:Ek;
    [|apply nth_error_None in Ek; lia].
  destruct (nth_error probs n) as [p|] eqn:Ep;
    [|apply nth_error_None in Ep; lia].
  rewrite (firstn_S_nth _ _ _ Ek), (firstn_S_nth _ _ _ Ep), combine_snoc
    by (rewrite !length_firstn; lia).
  rewrite seq_S, fold_left_app, IH by lia.
  cbn [fold_left rbind Nat.add]. unfold py_index. rewrite Ek, Ep.
  cbn [rbind]. rewrite DictFacts.set_absent; [reflexivity|].
  apply DictFacts.get_combine_notin. eapply NoDup_firstn_notin; eassumption.
Qed.


(** [argmax_from] returns either the running best, when nothing that
    follows exceeds it, or the position of an entry that nothing exceeds. *)
Lemma argmax_from_spec (l : list Q) :
  forall best_i best i,
    (argmax_from best_i best i l = best_i /\ Forall (fun p => p <= best) l) \/
    (exists k v, argmax_from best_i best i l = (i + k)%nat /\ nth_error l k = Some v /\
                 best <= v /\ Forall (fun p => p <= v) l).
Proof.
  induction l as [|x l IH]; intros bi b i; simpl.
  - left. split; [reflexivity|constructor].
  - destruct (Qle_bool x b) eqn:E.
    + apply Qle_bool_iff in E.
      destruct (IH bi b (S i)) as [[H1 H2]|(k & v & H1 & H2 & H3 & H4)].
      * left. split; [exact H1|constructor; assumption].
      * right. exists (S k), v.
        refine (conj _ (conj H2 (conj H3 _))).
        -- rewrite H1. lia.
        -- constructor; [eapply Qle_trans; eassumption|exact H4].
    + assert (Hlt : b < x).
      { apply Qnot_le_lt. intro H. apply Qle_bool_iff in H. congruence. }
      right. destruct (IH i x (S i)) as [[H1 H2]|(k & v & H1 & H2 & H3 & H4)].
      * exists 0%nat, x.
        refine (conj _ (conj eq_refl (conj (Qlt_le_weak _ _ Hlt) _))).
        -- rewrite H1. lia.
        -- constructor; [apply Qle_refl|exact H2].
      * exists (S k), v.
        refine (conj _ (conj H2 (conj _ _))).
        -- rewrite H1. lia.
        -- eapply Qle_trans; [apply Qlt_le_weak; exact Hlt|exact H3].
        -- constructor; [exact H3|exact H4].
Qed.

Lemma np_argmax_spec (probs : list Q) :
  probs <> [] ->
  exists i v, np_argmax probs = Ok i /\ nth_error probs i = Some v /\
              Forall (fun p => p <= v) probs.
Proof.
  destruct probs as [|x rest]; [congruence|]. intros _. simpl.
  destruct (argmax_from_spec rest 0%nat x 1%nat) as [[H1 H2]|(k & v & H1 & H2 & H3 & H4)].
  - exists 0%nat, x. rewrite H1. repeat split; auto.
    constructor; [apply Qle_refl|exact H2].
  - exists (S k), v. rewrite H1. repeat split; auto.
Qed.



Ltac distinct_strings :=
  repeat (constructor; [simpl; intuition discriminate|]); constructor.

Lemma DEFAULT_CLASS_NAMES_distinct :
  NoDup DEFAULT_CLASS_NAMES /\ length DEFAULT_CLASS_NAMES = 8%nat.
Proof. split; [unfold DEFAULT_CLASS_NAMES; distinct_strings|reflexivity]. Qed.


(* ------------------------------------------------------------------ *)
(** ** Saving under the upload folder *)

Module FolderFacts.
Import PyStr PyStrFacts OsPath.

Lemma rstrip_after (x : string) (c : ascii) :
  c <> "/"%char -> rstrip "/" ((x ++ String c "") ++ "/") = x ++ String c "".
Proof.
  intro Hc. induction x as [|a x IH].
  - simpl. destruct (Ascii.eqb_spec c "/"); [contradiction|reflexivity].
  - change ((String a x ++ String c "") ++ "/")
      with (String a ((x ++ String c "") ++ "/")).
    cbn [rstrip]. rewrite IH.
    destruct x; reflexivity.
Qed.

Lemma proper_folder_join (folder name : string) :
  proper_folder folder -> contains "/" name = false ->
  join folder name = folder ++ String "/" name.
Proof.
  intros (x & c & -> & Hc) Hn. unfold join.
  assert (Hs : startswith "/" name = false).
  { destruct name as [|a n]; [reflexivity|]. cbn [startswith contains] in *.
    apply orb_false_iff in Hn as [Ha _]. rewrite Ascii.eqb_sym, Ha. reflexivity. }
  rewrite Hs.
  assert (He : String.eqb (x ++ String c "") "" = false) by (destruct x; reflexivity).
  assert (Hw : endswith "/" (x ++ String c "") = false).
  { unfold endswith. rewrite chars_app, rev_app_distr.
    cbn [chars list_ascii_of_string rev app string_of_list_ascii startswith].
    destruct (Ascii.eqb_spec "/" c) as [E|_]; [congruence|reflexivity]. }
  rewrite He, Hw. reflexivity.
Qed.

Lemma dirname_join (folder name : string) :
  proper_folder folder -> contains "/" name = false ->
  dirname (join folder name) = folder /\ basename (join folder name) = name.
Proof.
  intros Hf Hn. rewrite (proper_folder_join folder name Hf Hn).
  unfold dirname, basename, sep. rewrite (split_last_app "/" folder name Hn).
  destruct Hf as (x & c & -> & Hc). rewrite (rstrip_after x c Hc).
  split; [destruct x; reflexivity|reflexivity].
Qed.

Lemma join_proper (base : string) (x : string) (c : ascii) :
  c <> "/"%char -> startswith "/" (x ++ String c "") = false ->
  proper_folder (join base (x ++ String c "")).
Proof.
  intros Hc Hs. unfold join. rewrite Hs.
  destruct (String.eqb base "" || endswith "/" base)%bool.
  - exists (base ++ x), c. rewrite append_assoc. auto.
  - exists (base ++ "/" ++ x), c. rewrite !append_assoc. auto.
Qed.

Lemma UPLOAD_FOLDER_proper (cfg : Config) : proper_folder (UPLOAD_FOLDER cfg).
Proof. apply (join_proper (BASE_DIR cfg) "upload" "s"); [discriminate|reflexivity]. Qed.

Lemma REPORTS_FOLDER_proper (cfg : Config) : proper_folder (REPORTS_FOLDER cfg).
Proof. apply (join_proper (BASE_DIR cfg) "report" "s"); [discriminate|reflexivity]. Qed.

End FolderFacts.

Module FsFacts.

Lemma get_set_same {V : Type} (d : Dict.t V) (k : string) (v : V) :
  Dict.get (Dict.set d k v) k = Some v.
Proof.
  induction d as [|[k0 v0] d IH]; simpl.
  - rewrite String.eqb_refl. reflexivity.
  - destruct (String.eqb k0 k) eqn:E; simpl; rewrite E; [reflexivity|exact IH].
Qed.



End FsFacts.

(* ------------------------------------------------------------------ *)
(** ** Upload *)

Lemma contains_forallb (P : ascii -> bool) (c : ascii) (s : string) :
  P c = false -> forallb P (PyStr.chars s) = true -> PyStr.contains c s = false.
Proof.
  intros Hc. induction s as [|a s IH]; simpl; intro H; [reflexivity|].
  apply andb_true_iff in H as [Ha Hs]. rewrite (IH Hs), orb_false_r.
  destruct (Ascii.eqb_spec a c) as [->|_]; [congruence|reflexivity].
Qed.

Lemma generate_image_id_no_sep (random_bits : N) :
  PyStr.contains "/" (generate_image_id random_bits) = false.
Proof.
  unfold generate_image_id, uuid_hex. rewrite PyStrFacts.contains_app.
  rewrite (contains_forallb is_hex_lower "/" _ eq_refl
             (take_forallb is_hex_lower 8 _ (hex_digits_hex 32 (uuid4 random_bits)))).
  reflexivity.
Qed.

Lemma build_saved_filename_no_sep (secure : string -> string) (random_bits : N)
    (original : string) :
  (forall s, PyStr.contains "/" (secure s) = false) ->
  PyStr.contains "/" (build_saved_filename secure (generate_image_id random_bits) original)
  = false.
Proof.
  intro Hs. unfold build_saved_filename.
  rewrite !PyStrFacts.contains_app, generate_image_id_no_sep, Hs. reflexivity.
Qed.


Lemma get_set_other {V : Type} (d : Dict.t V) (k k' : string) (v : V) :
  k <> k' -> Dict.get (Dict.set d k v) k' = Dict.get d k'.
Proof.
  intro Hne. induction d as [|[k0 v0] d IH]; simpl.
  - destruct (String.eqb_spec k k'); [contradiction|reflexivity].
  - destruct (String.eqb_spec k0 k) as [->|H0]; simpl.
    + destruct (String.eqb_spec k k'); [contradiction|reflexivity].
    + rewrite IH. reflexivity.
Qed.

(** When [create_app] returns, the upload folder is in place. *)
Lemma makedirs_keeps (fs fs' : FS) (d d' : string) :
  Fs.makedirs fs d' = Ok fs' -> Fs.isdir fs d = true -> Fs.isdir fs' d = true.
Proof.
  unfold Fs.makedirs. destruct (Fs.isdir fs d') eqn:E.
  - intro H. inversion H; subst. auto.
  - destruct (Fs.exists_file fs d'); [discriminate|].
    destruct (String.eqb d' ""); [discriminate|].
    intros H Hd. inversion H; subst.
    destruct (String.eqb_spec d' d) as [->|Hne]; [congruence|].
    unfold Fs.isdir in *. rewrite (get_set_other fs d' d [] Hne). exact Hd.
Qed.

Lemma makedirs_isdir (fs fs' : FS) (d : string) :
  Fs.makedirs fs d = Ok fs' -> Fs.isdir fs' d = true.
Proof.
  unfold Fs.makedirs. destruct (Fs.isdir fs d) eqn:E.
  - intro H. inversion H; subst. exact E.
  - destruct (Fs.exists_file fs d); [discriminate|].
    destruct (String.eqb d ""); [discriminate|].
    intro H. inversion H; subst. unfold Fs.isdir.
    rewrite FsFacts.get_set_same. reflexivity.
Qed.

Lemma create_app_upload_folder (cfg : Config) (w w' : World) :
  create_app cfg w = Ok w' -> Fs.isdir (fs w') (UPLOAD_FOLDER cfg) = true.
Proof.
  unfold create_app. cbn [ensure_directories].
  destruct (Fs.makedirs (fs w) (UPLOAD_FOLDER cfg)) as [fs1|e] eqn:E1;
    cbn [rbind]; [|discriminate].
  destruct (Fs.makedirs fs1 (RESULTS_FOLDER cfg)) as [fs2|e] eqn:E2;
    cbn [rbind]; [|discriminate].
  destruct (Fs.makedirs fs2 (REPORTS_FOLDER cfg)) as [fs3|e] eqn:E3;
    cbn [rbind]; [|discriminate].
  intro H. inversion H; subst. cbn [fs with_fs].
  apply (makedirs_keeps _ _ _ _ E3), (makedirs_keeps _ _ _ _ E2), (makedirs_isdir _ _ _ E1).
Qed.



Lemma demo_secure_filename_no_sep (s : string) :
  PyStr.contains "/" (demo_secure_filename s) = false.
Proof.
  induction s as [|a s IH]; simpl; [reflexivity|].
  destruct (demo_keep a) eqn:E; [|exact IH].
  simpl. rewrite IH, orb_false_r.
  destruct (Ascii.eqb_spec a "/") as [->|_]; [discriminate|reflexivity].
Qed.


(* ------------------------------------------------------------------ *)
(** ** Prediction endpoint *)

Lemma rbind_inference {A B : Type} (r : result A) (k : A -> result B) :
  ok_or_inference r = true -> (forall a, ok_or_inference (k a) = true) ->
  ok_or_inference (rbind r k) = true.
Proof. destruct r as [a|e]; simpl; auto. Qed.

Lemma py_index_inference {A : Type} (l : list A) (i : nat) :
  ok_or_inference (py_index l i) = true.
Proof. unfold py_index. destruct (nth_error l i); reflexivity. Qed.

Lemma fs_read_inference (fs : FS) (path : string) : ok_or_inference (Fs.read fs path) = true.
Proof.
  unfold Fs.read. destruct (Dict.get fs (OsPath.dirname path)) as [e|]; [|reflexivity].
  destruct (Dict.get e (OsPath.basename path)); reflexivity.
Qed.

Lemma predictions_dict_inference (class_names : list string) (probs : list Q) :
  ok_or_inference (predictions_dict class_names probs) = true.
Proof.
  unfold predictions_dict.
  assert (H : ok_or_inference (Ok [] : result (Dict.t Q)) = true) by reflexivity.
  revert H. generalize (Ok [] : result (Dict.t Q)) as acc.
  induction (seq 0 (length class_names)) as [|i l IH]; intros acc H; simpl; [exact H|].
  apply IH. apply rbind_inference; [exact H|]. intro d.
  apply rbind_inference; [apply py_index_inference|]. intro k.
  apply rbind_inference; [apply py_index_inference|]. reflexivity.
Qed.

(** Inference ends with a result or one of its own exceptions, none of
    them an HTTP error: Flask answers those with 500. *)
Lemma predict_oct_inference (ext : Externals) (image_path model_path : string)
    (class_names : option (list string)) (w : World) :
  ok_or_inference (fst (predict_oct ext image_path model_path class_names w)) = true.
Proof.
  unfold predict_oct, get_model.
  destruct (_model w) as [m|].
  - cbn [fst]. apply rbind_inference.
    + unfold load_img. apply rbind_inference; [apply fs_read_inference|].
      intros [data|? ? ?]; [destruct (decode_image ext data _)|]; reflexivity.
    + intro img. destruct (np_argmax _) as [i|e] eqn:E.
      * cbn [rbind]. apply rbind_inference; [apply predictions_dict_inference|].
        intro d. apply rbind_inference; [apply py_index_inference|]. intro t.
        apply rbind_inference; [apply py_index_inference|]. reflexivity.
      * unfold np_argmax in E. destruct (predict m _); inversion E. reflexivity.
  - destruct (load_model ext w model_path) as [m|e] eqn:El.
    + cbn [fst]. apply rbind_inference.
      * unfold load_img. apply rbind_inference; [apply fs_read_inference|].
        intros [data|? ? ?]; [destruct (decode_image ext data _)|]; reflexivity.
      * intro img. destruct (np_argmax _) as [i|e] eqn:E.
        -- cbn [rbind]. apply rbind_inference; [apply predictions_dict_inference|].
           intro d. apply rbind_inference; [apply py_index_inference|]. intro t.
           apply rbind_inference; [apply py_index_inference|]. reflexivity.
        -- unfold np_argmax in E. destruct (predict m _); inversion E. reflexivity.
    + cbn [fst]. unfold load_model in El.
      pose proof (fs_read_inference (fs w) model_path) as Hr.
      destruct (Fs.read (fs w) model_path) as [[data|? ? ?]|e0]; simpl in *.
      * destruct (parse_model ext data); inversion El. reflexivity.
      * inversion El. reflexivity.
      * inversion El; subst. exact Hr.
Qed.

Lemma inference_status (e : exn) :
  inference_exn e = true -> http_status (Raise e) = 500%nat.
Proof. destruct e; simpl; congruence. Qed.

Lemma find_image_path_by_id_listing (cfg : Config) (w : World) (image_id : string) :
  find_image_path_by_id (fs w) image_id (UPLOAD_FOLDER cfg) =
  Ok (match first_with_prefix (image_id ++ "_") (upload_listing cfg w) with
      | Some name => Some (OsPath.join (UPLOAD_FOLDER cfg) name)
      | None => None
      end).
Proof.
  unfold find_image_path_by_id, upload_listing, Fs.isdir, Fs.listdir.
  destruct (Dict.get (fs w) (UPLOAD_FOLDER cfg)) as [entries|]; [|reflexivity].
  cbn [negb rbind]. destruct (first_with_prefix _ _); reflexivity.
Qed.

(** C2 (as stated, it fails): the id resolves to an uploaded file, yet the
    response carries no predictions: the file does not decode as an image,
    and the failure of inference leaves the handler as a server error. *)
Lemma predict_handler_inference_failure :
  find_image_path_by_id (fs predict_demo_world) "oct_12ab34cd"
    (UPLOAD_FOLDER upload_demo_cfg) = Ok (Some "/srv/uploads/oct_12ab34cd_scan.png") /\
  fst (predict_handler predict_demo_ext upload_demo_cfg "oct_12ab34cd" predict_demo_world)
    = Raise (ExternalError "load_img") /\
  http_status
    (fst (predict_handler predict_demo_ext upload_demo_cfg "oct_12ab34cd" predict_demo_world))
    = 500%nat.
Proof. repeat split; reflexivity. Qed.

(** C2 (amended). [GET /predict/<id>] responds 404 exactly when
    [find_image_path_by_id] resolves the id to nothing, that is when the
    upload folder lists no name that starts with [<id>_]. Otherwise it runs
    inference on the first such entry: when inference returns a result, the
    response carries the id, the predictions, the top label, the confidence
    and the derived summary and recommendation; when inference fails, the
    failure is the handler's outcome, a server error (500), never 404. *)
Theorem predict_handler_spec :
  forall (ext : Externals) (cfg : Config) (image_id : string) (w : World),
    let response := fst (predict_handler ext cfg image_id w) in
    (http_status response = 404%nat <->
     find_image_path_by_id (fs w) image_id (UPLOAD_FOLDER cfg) = Ok None) /\
    (find_image_path_by_id (fs w) image_id (UPLOAD_FOLDER cfg) = Ok None <->
     Forall (fun name => PyStr.startswith (image_id ++ "_") name = false)
            (upload_listing cfg w)) /\
    match first_with_prefix (image_id ++ "_") (upload_listing cfg w) with
    | None => predict_handler ext cfg image_id w = (abort 404 "Image not found.", w)
    | Some name =>
        let image_path := OsPath.join (UPLOAD_FOLDER cfg) name in
        find_image_path_by_id (fs w) image_id (UPLOAD_FOLDER cfg) = Ok (Some image_path) /\
        match predict_oct ext image_path (MODEL_PATH cfg) (Some CLASS_NAMES) w with
        | (Ok r, w1) =>
            predict_handler ext cfg image_id w =
            (Ok (jsonify [("image_id", JStr image_id);
                          ("predictions", JDict (predictions r));
                          ("top_disease", JStr (top_disease r));
                          ("confidence", JNum (confidence r));
                          ("summary", JStr (fst (predict_texts r)));
                          ("recommendation", JStr (snd (predict_texts r)))]), w1)
        | (Raise e, w1) =>
            predict_handler ext cfg image_id w = (Raise e, w1) /\
            http_status response = 500%nat
        end
    end.
Proof.
  intros ext cfg image_id w response. subst response. unfold predict_handler.
  rewrite (find_image_path_by_id_listing cfg w image_id).
  destruct (first_with_prefix (image_id ++ "_") (upload_listing cfg w)) as [name|] eqn:Ef.
  - pose proof (predict_oct_inference ext (OsPath.join (UPLOAD_FOLDER cfg) name)
                  (MODEL_PATH cfg) (Some CLASS_NAMES) w) as Hnh.
    destruct (predict_oct ext (OsPath.join (UPLOAD_FOLDER cfg) name) (MODEL_PATH cfg)
                (Some CLASS_NAMES) w) as [[r|e] w1]; cbn [fst] in *.
    + unfold json_of_predictions. destruct (predict_texts r) as [s t].
      cbn [fst snd http_status].
      split; [split; [discriminate|discriminate]|]. split.
      * split; [discriminate|]. intro H. apply first_with_prefix_none in H. congruence.
      * split; reflexivity.
    + simpl in Hnh. rewrite (inference_status e Hnh).
      split; [split; [discriminate|discriminate]|]. split.
      * split; [discriminate|]. intro H. apply first_with_prefix_none in H. congruence.
      * auto.
  - split; [split; reflexivity|]. split; [|reflexivity].
    split; [intros _; apply first_with_prefix_none; exact Ef|reflexivity].
Qed.

(* ------------------------------------------------------------------ *)
(** ** Summary and recommendation *)

Lemma predict_texts_report_texts (image_id now : string) (res : PredictionResult) :
  predict_texts res = report_texts (report_data image_id now res).
Proof. reflexivity. Qed.

(** A report that is built holds the two texts as body paragraphs. *)
Lemma build_report_paragraphs (cfg : Config) (now image_id image_path : string)
    (res : PredictionResult) (w1 : World) :
  match build_report cfg now image_id image_path res w1 with
  | (Ok _, w') =>
      exists elements footer fs',
        Fs.write (fs w1)
          (OsPath.join (REPORTS_FOLDER cfg) (image_id ++ "_report.pdf"))
          (Pdf "OCT Diagnostic Report" elements footer) = Ok fs' /\
        w' = with_fs w1 fs' /\
        In (Paragraph (fst (report_texts (report_data image_id now res))) "BodyText")
           elements /\
        In (Paragraph (snd (report_texts (report_data image_id now res))) "BodyText")
           elements
  | (Raise _, w') => w' = w1
  end.
Proof.
  unfold build_report. fold (report_data image_id now res).
  destruct (report_texts (report_data image_id now res)) as [s t].
  cbn [d_predictions d_generated_at d_image_id d_retinal_layer_thickness report_data].
  destruct (pred_rows_of (predictions res)) as [rows|e]; [|reflexivity].
  match goal with
  | |- context [Fs.write ?f ?p ?c] => destruct (Fs.write f p c) as [fs'|e] eqn:Ew
  end; [|reflexivity].
  do 3 eexists. split; [exact Ew|]. split; [reflexivity|].
  cbn [fst snd].
  destruct (is_some _ || is_some _)%bool;
    split; rewrite ?in_app_iff; simpl; auto 20.
Qed.

Lemma predict_oct_top_label (ext : Externals) (image_path model_path : string)
    (names : list string) (w w1 : World) (res : PredictionResult) :
  predict_oct ext image_path model_path (Some names) w = (Ok res, w1) ->
  In (top_disease res) names.
Proof.
  unfold predict_oct.
  destruct (get_model ext model_path w) as [[m|e] w0]; [|discriminate].
  destruct (load_img ext w0 image_path (299, 299)%nat) as [img|e];
    [|discriminate].
  cbn [rbind].
  destruct (np_argmax _) as [i|e]; [|discriminate]. cbn [rbind].
  destruct (predictions_dict _ _) as [d|e]; [|discriminate]. cbn [rbind].
  unfold py_index at 1.
  destruct (nth_error names i) as [top|] eqn:Et; [|discriminate]. cbn [rbind].
  destruct (py_index _ i) as [conf|e]; [|discriminate]. cbn [rbind].
  intro H. inversion H; subst. cbn [top_disease].
  exact (nth_error_In _ _ Et).
Qed.

Lemma predict_texts_configured (label : string) (preds : Dict.t Q) (conf : Q) :
  In label CLASS_NAMES ->
  predict_texts {| predictions := preds; top_disease := label; confidence := conf |}
  = spec_summary_texts
      {| predictions := preds; top_disease := label; confidence := conf |}.
Proof.
  intro Hin. unfold CLASS_NAMES in Hin.
  repeat (destruct Hin as [<-|Hin]; [reflexivity|]). destruct Hin.
Qed.

(** C7 (as stated, it fails): the branch is not on the top label being
    ["NORMAL"]. A result whose top label is ["normal"] gets the
    no-abnormality pair from both handlers, where a branch on the label
    being ["NORMAL"] selects the disease pair. *)
Lemma summary_texts_lowercase_label :
  String.eqb (top_disease lowercase_demo_result) "NORMAL" = false /\
  predict_texts lowercase_demo_result
    = ("AI suggests no significant abnormalities detected (90.0% confidence).",
       "Routine monitoring advised; follow standard screening intervals.") /\
  report_texts (report_data "oct_12ab34cd" "2025-01-01 10:00:00" lowercase_demo_result)
    = ("AI suggests no significant abnormalities detected (90.0% confidence).",
       "Routine monitoring advised; follow standard screening intervals.") /\
  spec_summary_texts lowercase_demo_result
    = ("AI suggests normal with 90.0% confidence.",
       "Recommend ophthalmology evaluation and correlation with clinical findings.") /\
  predict_texts lowercase_demo_result <> spec_summary_texts lowercase_demo_result.
Proof.
  split; [reflexivity|]. split; [reflexivity|]. split; [reflexivity|].
  split; [reflexivity|]. discriminate.
Qed.

(** C7 (amended). For every prediction result the summary and the
    recommendation of [GET /predict] are those of the report: both
    handlers pick one of the same two pairs of templates, filled with the
    confidence percentage to one decimal, by comparing the uppercased top
    label with ["NORMAL"]; for each of the configured class names that is
    the branch on the label being ["NORMAL"]. A top label ["DME"] with
    confidence 0.9134 gives ["AI suggests DME with 91.3% confidence."].
    Whenever [GET /report/<id>] returns a response, [GET /predict/<id>] in
    the same world returns a summary and a recommendation, for a top label
    among the configured names, and the document written to
    [<reports>/<id>_report.pdf] holds both as body paragraphs; so it is for
    the sample upload, whose report holds ["AI suggests no significant
    abnormalities detected (72.0% confidence)."]. *)
Theorem summary_texts_agree :
  forall (ext : Externals) (cfg : Config) (image_id now : string) (w : World),
    (forall res : PredictionResult,
        predict_texts res = report_texts (report_data image_id now res) /\
        predict_texts res =
          (if String.eqb (PyStr.upper (top_disease res)) "NORMAL" then
             ("AI suggests no significant abnormalities detected ("
                ++ Fmt.fixed 1 (confidence res * 100) ++ "% confidence).",
              "Routine monitoring advised; follow standard screening intervals.")
           else
             ("AI suggests " ++ top_disease res ++ " with "
                ++ Fmt.fixed 1 (confidence res * 100) ++ "% confidence.",
              "Recommend ophthalmology evaluation and correlation with clinical findings."))) /\
    Forall (fun label =>
              forall (preds : Dict.t Q) (conf : Q),
                predict_texts
                  {| predictions := preds; top_disease := label; confidence := conf |}
                = spec_summary_texts
                    {| predictions := preds; top_disease := label; confidence := conf |})
           CLASS_NAMES /\
    predict_texts disease_demo_result
      = ("AI suggests DME with 91.3% confidence.",
         "Recommend ophthalmology evaluation and correlation with clinical findings.") /\
    (forall resp : Response,
        fst (generate_pdf_report ext cfg now image_id w) = Ok resp ->
        exists (res : PredictionResult) (w1 : World) (elements : list Flowable)
               (footer : string) (fs' : FS),
          predict_handler ext cfg image_id w
            = (Ok (jsonify [("image_id", JStr image_id);
                            ("predictions", json_of_predictions (predictions res));
                            ("top_disease", JStr (top_disease res));
                            ("confidence", JNum (confidence res));
                            ("summary", JStr (fst (predict_texts res)));
                            ("recommendation", JStr (snd (predict_texts res)))]),
               w1) /\
          In (top_disease res) CLASS_NAMES /\
          predict_texts res = spec_summary_texts res /\
          Fs.write (fs w1)
            (OsPath.join (REPORTS_FOLDER cfg) (image_id ++ "_report.pdf"))
            (Pdf "OCT Diagnostic Report" elements footer) = Ok fs' /\
          snd (generate_pdf_report ext cfg now image_id w) = with_fs w1 fs' /\
          In (Paragraph (fst (predict_texts res)) "BodyText") elements /\
          In (Paragraph (snd (predict_texts res)) "BodyText") elements) /\
    (exists (elements : list Flowable) (footer : string),
        Fs.read
          (fs (snd (generate_pdf_report report_demo_ext upload_demo_cfg
                      "2025-01-01 10:00:00" "oct_12ab34cd" report_demo_world)))
          "/srv/reports/oct_12ab34cd_report.pdf"
          = Ok (Pdf "OCT Diagnostic Report" elements footer) /\
        response_fields
          (predict_handler report_demo_ext upload_demo_cfg "oct_12ab34cd"
             report_demo_world)
          = [("image_id", JStr "oct_12ab34cd");
             ("predictions",
              JDict [("AMD", 1 # 100); ("CNV", 2 # 100); ("CSR", 3 # 100);
                     ("DME", 4 # 100); ("DR", 5 # 100); ("DRUSEN", 6 # 100);
                     ("MH", 7 # 100); ("NORMAL", 72 # 100)]);
             ("top_disease", JStr "NORMAL");
             ("confidence", JNum (72 # 100));
             ("summary",
              JStr "AI suggests no significant abnormalities detected (72.0% confidence).");
             ("recommendation",
              JStr "Routine monitoring advised; follow standard screening intervals.")] /\
        In (Paragraph
              "AI suggests no significant abnormalities detected (72.0% confidence)."
              "BodyText") elements /\
        In (Paragraph "Routine monitoring advised; follow standard screening intervals."
              "BodyText") elements).
Proof.
  intros ext cfg image_id now w.
  split; [intro res; split; reflexivity|].
  split.
  { apply Forall_forall. intros label Hin preds conf.
    apply predict_texts_configured, Hin. }
  split; [reflexivity|].
  split.
  - intros resp. unfold generate_pdf_report, predict_handler.
    destruct (find_image_path_by_id (fs w) image_id (UPLOAD_FOLDER cfg))
      as [[image_path|]|e]; [|discriminate|discriminate].
    cbv zeta.
    destruct (predict_oct ext image_path (MODEL_PATH cfg) (Some CLASS_NAMES) w)
      as [[res|e] w1] eqn:Hp; [|discriminate].
    pose proof (predict_oct_top_label _ _ _ _ _ _ _ Hp) as Htop.
    pose proof (build_report_paragraphs cfg now image_id image_path res w1) as Hb.
    rewrite <- (predict_texts_report_texts image_id now res) in Hb.
    destruct (build_report cfg now image_id image_path res w1) as [[r|e] w'];
      [|discriminate].
    intros _. destruct Hb as (elements & footer & fs' & Hw & Hw' & Hs & Hr).
    exists res, w1, elements, footer, fs'.
    split; [destruct (predict_texts res); reflexivity|].
    split; [exact Htop|].
    split.
    { destruct res as [preds top conf]. apply predict_texts_configured, Htop. }
    auto.
  - do 2 eexists. split; [reflexivity|]. split; [reflexivity|].
    split; simpl; auto 20.
Qed.

Lemma summary_texts_agree_witness :
  exists (res : PredictionResult) (w1 : World) (elements : list Flowable)
         (footer : string) (fs' : FS),
    predict_handler report_demo_ext upload_demo_cfg "oct_12ab34cd" report_demo_world
      = (Ok (jsonify [("image_id", JStr "oct_12ab34cd");
                      ("predictions", json_of_predictions (predictions res));
                      ("top_disease", JStr (top_disease res));
                      ("confidence", JNum (confidence res));
                      ("summary", JStr (fst (predict_texts res)));
                      ("recommendation", JStr (snd (predict_texts res)))]),
         w1) /\
    In (top_disease res) CLASS_NAMES /\
    predict_texts res = spec_summary_texts res /\
    Fs.write (fs w1) (OsPath.join "/srv/reports" ("oct_12ab34cd" ++ "_report.pdf"))
      (Pdf "OCT Diagnostic Report" elements footer) = Ok fs' /\
    snd (generate_pdf_report report_demo_ext upload_demo_cfg "2025-01-01 10:00:00"
           "oct_12ab34cd" report_demo_world) = with_fs w1 fs' /\
    In (Paragraph (fst (predict_texts res)) "BodyText") elements /\
    In (Paragraph (snd (predict_texts res)) "BodyText") elements.
Proof.
  apply (proj1 (proj2 (proj2 (proj2
           (summary_texts_agree report_demo_ext upload_demo_cfg "oct_12ab34cd"
              "2025-01-01 10:00:00" report_demo_world))))
           (send_file "/srv/reports/oct_12ab34cd_report.pdf" "application/pdf"
              "report_oct_12ab34cd.pdf")).
  reflexivity.
Defined.

(* ------------------------------------------------------------------ *)
(** ** Mask endpoint *)

(** C10. For every id and every world, [GET /mask/<id>] succeeds (status
    200, never 404) and leaves the world as it was; its payload holds the
    id, an overlay URL that is a base taken from the configuration or the
    request followed by [/results/result.jpg], the six fixed thickness
    values and the fixed note: nothing but the echoed id depends on the id,
    and nothing depends on the stored files. *)
Theorem mask_spec :
  forall (cfg : Config) (request : Request) (image_id : string) (w : World),
    exists base : string,
      mask cfg request image_id w =
      (Ok (jsonify
             [("image_id", JStr image_id);
              ("overlay_mask_url", JStr (base ++ "/results/result.jpg"));
              ("retinal_layer_thickness",
               JDict [("rnfl", 764 # 10); ("gcl", 319 # 10); ("ipl", 217 # 10);
                      ("opl", 194 # 10); ("inl", 181 # 10); ("onl", 852 # 10)]);
              ("notes", JStr "RNFL thinning detected, consistent with glaucoma risk.")]),
       w) /\
      http_status (fst (mask cfg request image_id w)) = 200%nat /\
      base = PyStr.rstrip "/"
               (if String.eqb (SERVER_BASE_URL cfg) "" then host_url request
                else SERVER_BASE_URL cfg).
Proof.
  intros cfg request image_id w. unfold mask.
  destruct (String.eqb (SERVER_BASE_URL cfg) ""); cbn [negb];
    eexists; repeat split; reflexivity.
Qed.

(* ------------------------------------------------------------------ *)
(** ** The predictions table of the report *)

(** The full-name table has an entry exactly for the configured names. *)
Lemma disease_full_name_known (label : string) :
  unknown_label label = false <->
  exists full, Dict.get disease_full_name label = Some full.
Proof.
  unfold unknown_label, set_mem, CLASS_NAMES, disease_full_name.
  cbn [existsb Dict.get].
  rewrite !(String.eqb_sym label).
  repeat match goal with
         | |- context [String.eqb ?a label] => destruct (String.eqb a label)
         end; cbn [orb negb]; split; intro H;
    try reflexivity; try discriminate; eauto;
    destruct H as [full H]; discriminate.
Qed.

Lemma disease_full_name_unknown (label : string) :
  unknown_label label = true -> Dict.get disease_full_name label = None.
Proof.
  intro H. destruct (Dict.get disease_full_name label) as [full|] eqn:E; [|reflexivity].
  assert (Hk : unknown_label label = false) by (apply disease_full_name_known; eauto).
  congruence.
Qed.

(** The loop stops with [KeyError] at the first label outside the table,
    and otherwise appends one expanded row per prediction. *)
Lemma pred_rows_loop_spec (items : list (string * Q)) :
  forall pred_rows,
    match find unknown_label (map fst items) with
    | Some label => pred_rows_loop items pred_rows = Raise (KeyError label)
    | None =>
        exists rows,
          pred_rows_loop items pred_rows = Ok (pred_rows ++ rows)%list /\
          Forall2 expanded_row items rows
    end.
Proof.
  induction items as [|[disease prob] items IH]; intro pred_rows.
  - exists []. rewrite app_nil_r. split; [reflexivity|constructor].
  - cbn [map fst find pred_rows_loop]. unfold Dict.getitem.
    destruct (unknown_label disease) eqn:Eu.
    + rewrite (disease_full_name_unknown disease Eu). reflexivity.
    + apply disease_full_name_known in Eu as [full Hfull]. rewrite Hfull.
      cbn [rbind].
      specialize (IH (pred_rows ++ [[CText full; CText (Fmt.fixed 2 (prob * 100) ++ "%")]])%list).
      destruct (find unknown_label (map fst items)) as [label|]; [exact IH|].
      destruct IH as (rows & Hr & Hf).
      exists ([CText full; CText (Fmt.fixed 2 (prob * 100) ++ "%")] :: rows).
      split.
      * rewrite Hr, <- app_assoc. reflexivity.
      * constructor; [exists full; auto|exact Hf].
Qed.

Lemma keys_set_subset {V : Type} (d : Dict.t V) (k k' : string) (v : V) :
  In k' (Dict.keys (Dict.set d k v)) -> k' = k \/ In k' (Dict.keys d).
Proof.
  unfold Dict.keys. induction d as [|[k0 v0] d IH]; simpl.
  - intros [H|[]]. left. congruence.
  - destruct (String.eqb k0 k); simpl; intros [H|H]; auto.
    destruct (IH H); auto.
Qed.

(** The comprehension only writes keys taken from the class names. *)
Lemma predictions_dict_keys (class_names : list string) (probs : list Q) (d : Dict.t Q) :
  predictions_dict class_names probs = Ok d ->
  forall k, In k (Dict.keys d) -> In k class_names.
Proof.
  unfold predictions_dict.
  assert (H : forall d0, (Ok [] : result (Dict.t Q)) = Ok d0 ->
                         forall k, In k (Dict.keys d0) -> In k class_names).
  { intros d0 E k Hk. inversion E; subst. destruct Hk. }
  revert H d. generalize (Ok [] : result (Dict.t Q)) as acc.
  induction (seq 0 (length class_names)) as [|i l IH]; intros acc H d; simpl.
  - apply H.
  - apply IH. intros d1 E k Hk.
    destruct acc as [d0|e]; [|discriminate]. cbn [rbind] in E.
    unfold py_index in E.
    destruct (nth_error class_names i) as [name|] eqn:En; [|discriminate].
    destruct (nth_error probs i) as [p|]; [|discriminate].
    cbn [rbind] in E. inversion E; subst.
    destruct (keys_set_subset _ _ _ _ Hk) as [->|Hin].
    + eapply nth_error_In. exact En.
    + exact (H d0 eq_refl k Hin).
Qed.

Lemma predict_oct_keys (ext : Externals) (image_path model_path : string)
    (class_names : list string) (w w1 : World) (r : PredictionResult) :
  predict_oct ext image_path model_path (Some class_names) w = (Ok r, w1) ->
  forall k, In k (Dict.keys (predictions r)) -> In k class_names.
Proof.
  unfold predict_oct.
  destruct (get_model ext model_path w) as [[m|e] w0]; [|discriminate].
  destruct (load_img ext w0 image_path (299, 299)%nat) as [img|e]; [|discriminate].
  cbn [rbind].
  destruct (np_argmax _) as [i|e]; [|discriminate]. cbn [rbind].
  destruct (predictions_dict class_names _) as [d|e] eqn:Ed; [|discriminate].
  cbn [rbind].
  destruct (py_index class_names i) as [t|e]; [|discriminate]. cbn [rbind].
  destruct (py_index _ i) as [c|e]; [|discriminate]. cbn [rbind].
  intro E. inversion E; subst. cbn [predictions].
  exact (predictions_dict_keys _ _ _ Ed).
Qed.

Lemma find_none_known (keys : list string) :
  (forall k, In k keys -> In k CLASS_NAMES) -> find unknown_label keys = None.
Proof.
  intro H. induction keys as [|k keys IH]; [reflexivity|]. simpl.
  assert (Hk : unknown_label k = false).
  { unfold unknown_label. apply negb_false_iff, set_mem_In, H. left. reflexivity. }
  rewrite Hk. apply IH. intros k' Hin. apply H. right. exact Hin.
Qed.

Lemma build_report_unknown_label (cfg : Config) (now image_id image_path : string)
    (res : PredictionResult) (w1 : World) (label : string) :
  pred_rows_of (predictions res) = Raise (KeyError label) ->
  build_report cfg now image_id image_path res w1 = (Raise (KeyError label), w1).
Proof.
  intro H. unfold build_report.
  destruct (report_texts _) as [s t]. cbn [d_predictions]. rewrite H. reflexivity.
Qed.

Lemma build_report_known_labels (cfg : Config) (now image_id image_path : string)
    (res : PredictionResult) (w1 : World) (rows : list (list Cell)) :
  pred_rows_of (predictions res) = Ok rows ->
  forall label,
    fst (build_report cfg now image_id image_path res w1) <> Raise (KeyError label).
Proof.
  intros H label. unfold build_report.
  destruct (report_texts _) as [s t]. cbn [d_predictions]. rewrite H.
  unfold Fs.write. destruct (Dict.get (fs w1) _); cbn [fst]; discriminate.
Qed.

(** C9. The full-name table has 8 entries, one for each configured class
    name. The loop over the predictions raises [KeyError] at the first
    label outside those names, and then the report ends there, with the
    world as it was: no PDF is written. Without such a label it appends one
    row per prediction, its label expanded through the table. The
    [/report] handler runs inference with the configured class names, so it
    never ends with a [KeyError]. *)
Theorem report_label_lookup :
  forall (ext : Externals) (cfg : Config) (now image_id image_path : string)
         (res : PredictionResult) (w w1 : World),
    (Dict.size disease_full_name = 8%nat /\
     Forall (fun label => exists full, Dict.get disease_full_name label = Some full)
            ["AMD"; "CNV"; "CSR"; "DME"; "DR"; "DRUSEN"; "MH"; "NORMAL"]) /\
    match find unknown_label (Dict.keys (predictions res)) with
    | Some label =>
        pred_rows_of (predictions res) = Raise (KeyError label) /\
        build_report cfg now image_id image_path res w1 = (Raise (KeyError label), w1)
    | None =>
        exists rows,
          pred_rows_of (predictions res)
            = Ok ([CText "Disease"; CText "Probability"] :: rows) /\
          Forall2 expanded_row (predictions res) rows /\
          forall label,
            fst (build_report cfg now image_id image_path res w1)
              <> Raise (KeyError label)
    end /\
    forall label,
      fst (generate_pdf_report ext cfg now image_id w) <> Raise (KeyError label).
Proof.
  intros ext cfg now image_id image_path res w w1. split; [|split].
  - split; [reflexivity|]. repeat constructor; eexists; reflexivity.
  - pose proof (pred_rows_loop_spec (predictions res)
                  [[CText "Disease"; CText "Probability"]]) as H.
    unfold Dict.keys. fold (pred_rows_of (predictions res)) in H.
    destruct (find unknown_label (map fst (predictions res))) as [label|].
    + split; [exact H|]. apply build_report_unknown_label. exact H.
    + destruct H as (rows & Hr & Hf). exists rows.
      split; [exact Hr|]. split; [exact Hf|].
      eapply build_report_known_labels. exact Hr.
  - intro label. unfold generate_pdf_report.
    rewrite (find_image_path_by_id_listing cfg w image_id).
    destruct (first_with_prefix _ _) as [name|]; [|cbn; discriminate].
    pose proof (predict_oct_inference ext (OsPath.join (UPLOAD_FOLDER cfg) name)
                  (MODEL_PATH cfg) (Some CLASS_NAMES) w) as Hi.
    destruct (predict_oct ext (OsPath.join (UPLOAD_FOLDER cfg) name) (MODEL_PATH cfg)
                (Some CLASS_NAMES) w) as [[r|e] w0] eqn:Ep; cbn [fst] in *.
    + pose proof (pred_rows_loop_spec (predictions r)
                    [[CText "Disease"; CText "Probability"]]) as H.
      fold (pred_rows_of (predictions r)) in H.
      pose proof (find_none_known _ (predict_oct_keys _ _ _ _ _ _ _ Ep)) as Hn.
      unfold Dict.keys in Hn. rewrite Hn in H.
      destruct H as (rows & Hr & _).
      eapply build_report_known_labels. exact Hr.
    + intro E. inversion E; subst. discriminate Hi.
Qed.

(* ================================================================== *)
(** * Further properties of the storage helper, the inference adapter and
      the handlers *)

(* ------------------------------------------------------------------ *)
(** ** [is_allowed_file] and letter case *)

Ltac by_all_chars a :=
  destruct a as [[] [] [] [] [] [] [] []]; reflexivity.

Lemma lower_char_dot (a : ascii) :
  Ascii.eqb (PyStr.lower_char a) "." = Ascii.eqb a ".".
Proof. by_all_chars a. Qed.

Lemma upper_char_dot (a : ascii) :
  Ascii.eqb (PyStr.upper_char a) "." = Ascii.eqb a ".".
Proof. by_all_chars a. Qed.

Lemma lower_char_idem (a : ascii) :
  PyStr.lower_char (PyStr.lower_char a) = PyStr.lower_char a.
Proof. by_all_chars a. Qed.

Lemma lower_upper_char (a : ascii) :
  PyStr.lower_char (PyStr.upper_char a) = PyStr.lower_char a.
Proof. by_all_chars a. Qed.

Section CaseMap.
Variable f : ascii -> ascii.
Hypothesis f_dot : forall a, Ascii.eqb (f a) "." = Ascii.eqb a ".".
Hypothesis f_lower : forall a, PyStr.lower_char (f a) = PyStr.lower_char a.

Lemma map_chars_contains (s : string) :
  PyStr.contains "." (PyStr.map_chars f s) = PyStr.contains "." s.
Proof.
  induction s as [|a s IH]; [reflexivity|].
  cbn [PyStr.map_chars PyStr.contains]. rewrite f_dot, IH. reflexivity.
Qed.

Lemma map_chars_split_last (s : string) :
  PyStr.split_last "." (PyStr.map_chars f s) =
  match PyStr.split_last "." s with
  | Some (b, t) => Some (PyStr.map_chars f b, PyStr.map_chars f t)
  | None => None
  end.
Proof.
  induction s as [|a s IH]; [reflexivity|].
  cbn [PyStr.map_chars PyStr.split_last]. rewrite IH, f_dot.
  destruct (PyStr.split_last "." s) as [[b t]|]; [reflexivity|].
  destruct (Ascii.eqb a "."); reflexivity.
Qed.

Lemma lower_map_chars (s : string) :
  PyStr.lower (PyStr.map_chars f s) = PyStr.lower s.
Proof.
  unfold PyStr.lower. induction s as [|a s IH]; [reflexivity|].
  cbn [PyStr.map_chars]. rewrite f_lower, IH. reflexivity.
Qed.

Lemma is_allowed_file_map_chars (filename : string) (exts : list string) :
  is_allowed_file (PyStr.map_chars f filename) exts = is_allowed_file filename exts.
Proof.
  unfold is_allowed_file, PyStr.rsplit1.
  rewrite map_chars_contains, map_chars_split_last.
  destruct (PyStr.split_last "." filename) as [[b t]|]; [|reflexivity].
  cbn [py_index nth_error]. rewrite lower_map_chars. reflexivity.
Qed.

End CaseMap.

(** X3. For a filename of ASCII characters, [is_allowed_file] does not
    depend on the letter case: lowercasing or uppercasing the whole name
    (for any set of allowed extensions) leaves the answer as it is. *)
Theorem is_allowed_file_case_insensitive :
  forall (filename : string) (allowed_extensions : list string),
    is_ascii_string filename = true ->
    is_allowed_file (PyStr.lower filename) allowed_extensions
      = is_allowed_file filename allowed_extensions /\
    is_allowed_file (PyStr.upper filename) allowed_extensions
      = is_allowed_file filename allowed_extensions.
Proof.
  intros filename exts _. split.
  - apply (is_allowed_file_map_chars PyStr.lower_char lower_char_dot lower_char_idem).
  - apply (is_allowed_file_map_chars PyStr.upper_char upper_char_dot lower_upper_char).
Qed.

Lemma is_allowed_file_case_insensitive_witness :
  is_allowed_file (PyStr.lower "Scan.01.JpEg") ["png"; "jpg"; "jpeg"; "dcm"]
    = is_allowed_file "Scan.01.JpEg" ["png"; "jpg"; "jpeg"; "dcm"] /\
  is_allowed_file (PyStr.upper "Scan.01.JpEg") ["png"; "jpg"; "jpeg"; "dcm"]
    = is_allowed_file "Scan.01.JpEg" ["png"; "jpg"; "jpeg"; "dcm"].
Proof.
  apply (is_allowed_file_case_insensitive "Scan.01.JpEg" ["png"; "jpg"; "jpeg"; "dcm"]).
  reflexivity.
Defined.

(* ------------------------------------------------------------------ *)
(** ** Identifiers and lookups *)

Lemma shiftl_const_high (a n m : N) :
  (n <= m)%N -> (N.log2 a < m - n)%N -> N.testbit (N.shiftl a n) m = false.
Proof.
  intros Hnm Hlog. rewrite N.shiftl_spec_high' by exact Hnm.
  apply N.bits_above_log2. exact Hlog.
Qed.

(** The version and variant bits that [uuid4] forces lie below bit 96. *)
Lemma uuid4_top32 (random_bits : N) : top32 (uuid4 random_bits) = top32 random_bits.
Proof.
  apply N.bits_inj. intro i. rewrite !top32_bits.
  destruct (N.ltb_spec i 32) as [Hi|Hi]; [|rewrite !andb_false_r; reflexivity].
  rewrite !andb_true_r. unfold uuid4. cbv zeta.
  rewrite N.lor_spec, N.ldiff_spec, N.lor_spec, N.ldiff_spec, N.land_spec.
  rewrite (shiftl_const_high 4 76), (shiftl_const_high 61440 64),
    (shiftl_const_high 32768 48), (shiftl_const_high 49152 48);
    try (cbn [N.log2 Pos.size_nat Pos.size N.succ Pos.succ]; lia).
  rewrite N.ones_spec_low by lia.
  cbn [negb]. rewrite !andb_true_r, !orb_false_r. reflexivity.
Qed.

Lemma append_length (a b : string) :
  String.length (a ++ b) = (String.length a + String.length b)%nat.
Proof. induction a as [|c a IH]; simpl; [reflexivity|]. rewrite IH. reflexivity. Qed.

Lemma generate_image_id_length (random_bits : N) :
  String.length (generate_image_id random_bits) = 12%nat.
Proof.
  unfold generate_image_id, uuid_hex.
  rewrite append_length, take_length, hex_digits_length. reflexivity.
Qed.

(** X4. The identifier has 12 characters and is a function of bits 96 to
    127 of the random draw alone: the version and variant bits that the
    UUID forces never show in it, and two draws give the same identifier
    exactly when they agree on those 32 bits. *)
Theorem generate_image_id_random_bits :
  forall r1 r2 : N,
    String.length (generate_image_id r1) = 12%nat /\
    (generate_image_id r1 = generate_image_id r2 <-> top32 r1 = top32 r2).
Proof.
  intros r1 r2. split; [apply generate_image_id_length|].
  rewrite generate_image_id_eq_iff, !uuid4_top32. reflexivity.
Qed.

Lemma startswith_same_length (a b x y : string) :
  String.length a = String.length b ->
  PyStr.startswith (a ++ x) (b ++ y) = true -> a = b.
Proof.
  revert b. induction a as [|c a IH]; intros [|d b] Hlen H; simpl in *;
    try discriminate; [reflexivity|].
  apply andb_true_iff in H as [Hc H]. apply Ascii.eqb_eq in Hc. subst d.
  f_equal. apply IH; [lia|exact H].
Qed.

(** X5. A file saved under one generated identifier never has the lookup
    prefix of a different generated identifier, whatever its original name:
    looking up one upload cannot return another one's file. *)
Theorem generated_ids_do_not_cross_match :
  forall (secure : string -> string) (r1 r2 : N) (original : string),
    generate_image_id r1 <> generate_image_id r2 ->
    PyStr.startswith (generate_image_id r2 ++ "_")
      (build_saved_filename secure (generate_image_id r1) original) = false.
Proof.
  intros secure r1 r2 original Hne.
  destruct (PyStr.startswith _ _) eqn:E; [|reflexivity].
  exfalso. apply Hne. symmetry. unfold build_saved_filename in E.
  rewrite PyStrFacts.append_assoc in E.
  apply (startswith_same_length _ _ _ _
           (eq_trans (generate_image_id_length r2)
                     (eq_sym (generate_image_id_length r1))) E).
Qed.

Lemma generated_ids_do_not_cross_match_witness :
  PyStr.startswith (generate_image_id (2 ^ 96) ++ "_")
    (build_saved_filename demo_secure_filename (generate_image_id 0) "scan.png") = false.
Proof.
  apply (generated_ids_do_not_cross_match demo_secure_filename 0 (2 ^ 96) "scan.png").
  vm_compute. discriminate.
Defined.

(** X6. The lookup matches by prefix, so an identifier that is a proper
    part of a saved one, up to an underscore, resolves as well: with a file
    saved under [X_Y] in the folder, looking up [X] returns a path. *)
Theorem find_image_path_by_id_partial_id :
  forall (secure : string -> string) (fs : FS) (X Y original upload_folder : string)
         (entries : Dir),
    Dict.get fs upload_folder = Some entries ->
    In (build_saved_filename secure (X ++ "_" ++ Y) original) (map fst entries) ->
    exists name,
      find_image_path_by_id fs X upload_folder
        = Ok (Some (OsPath.join upload_folder name)) /\
      PyStr.startswith (X ++ "_") name = true /\ In name (map fst entries).
Proof.
  intros secure fs X Y original folder entries Hdir Hin.
  assert (Hp : PyStr.startswith (X ++ "_")
                 (build_saved_filename secure (X ++ "_" ++ Y) original) = true).
  { unfold build_saved_filename.
    replace (((X ++ "_" ++ Y) ++ "_") ++ secure original)
      with ((X ++ "_") ++ (Y ++ "_" ++ secure original)).
    - apply PyStrFacts.startswith_app.
    - rewrite !PyStrFacts.append_assoc. simpl.
      rewrite ?PyStrFacts.append_assoc. reflexivity. }
  destruct (first_with_prefix_first (X ++ "_") _ _ Hin Hp)
    as (name & before & after & Hf & Hsplit & _ & Hn).
  exists name. repeat split.
  - unfold find_image_path_by_id, Fs.isdir, Fs.listdir. rewrite Hdir.
    cbn [negb rbind]. rewrite Hf. reflexivity.
  - exact Hn.
  - rewrite Hsplit. apply in_or_app. right. left. reflexivity.
Qed.

Lemma find_image_path_by_id_partial_id_witness :
  exists name,
    find_image_path_by_id round_trip_fs "oct" "/srv/uploads"
      = Ok (Some (OsPath.join "/srv/uploads" name)) /\
    PyStr.startswith ("oct" ++ "_") name = true /\
    In name ["oct_0000aaaa_old.png"; "oct_12ab34cd_scan.png"; "oct_12ab34cd_zzz.png"].
Proof.
  apply (find_image_path_by_id_partial_id (fun s => s) round_trip_fs "oct" "12ab34cd"
           "scan.png" "/srv/uploads"
           [("oct_0000aaaa_old.png", Bytes "a");
            ("oct_12ab34cd_scan.png", Bytes "b");
            ("oct_12ab34cd_zzz.png", Bytes "c")]).
  - reflexivity.
  - simpl. right. left. reflexivity.
Defined.

(* ------------------------------------------------------------------ *)
(** ** What an accepted upload does to the upload folder *)

(** An accepted upload, of a body within [MAX_CONTENT_LENGTH], answers
    with the generated id and sets one entry of the upload folder. *)
Lemma upload_image_stores (ext : Externals) (cfg : Config) (random_bits : N)
    (request : Request) (w : World) (file : FileStorage) (entries : Dir) :
  (content_length request <= MAX_CONTENT_LENGTH)%N ->
  (forall s, PyStr.contains "/" (secure_filename ext s) = false) ->
  Dict.get (fs w) (UPLOAD_FOLDER cfg) = Some entries ->
  Dict.get (files request) "image" = Some file ->
  filename file <> "" ->
  is_allowed_file (filename file) ALLOWED_EXTENSIONS = true ->
  upload_image ext cfg random_bits request w =
  (Ok (jsonify [("status", JStr "success");
                ("image_id", JStr (generate_image_id random_bits));
                ("message", JStr "Image uploaded successfully.")]),
   with_fs w
     (Dict.set (fs w) (UPLOAD_FOLDER cfg)
        (Dict.set entries
           (build_saved_filename (secure_filename ext) (generate_image_id random_bits)
              (filename file))
           (Bytes (stream file))))).
Proof.
  intros Hsize Hsec Hget Hfile Hname Hallowed. unfold upload_image, request_files.
  apply N.ltb_ge in Hsize. rewrite Hsize, Hfile. apply String.eqb_neq in Hname. rewrite Hname, Hallowed. cbn [negb].
  cbv zeta. unfold Fs.write.
  destruct (FolderFacts.dirname_join (UPLOAD_FOLDER cfg) _
              (FolderFacts.UPLOAD_FOLDER_proper cfg)
              (build_saved_filename_no_sep _ random_bits (filename file) Hsec))
    as [Hd Hb].
  rewrite Hd, Hb, Hget. reflexivity.
Qed.


Lemma build_report_not_404 (cfg : Config) (now image_id image_path : string)
    (res : PredictionResult) (w1 : World) :
  http_status (fst (build_report cfg now image_id image_path res w1)) <> 404%nat.
Proof.
  unfold build_report. destruct (report_texts _) as [s t].
  destruct (pred_rows_of _) as [rows|e] eqn:Er.
  - unfold Fs.write. destruct (Dict.get (fs w1) _); cbn; discriminate.
  - cbn [fst]. unfold pred_rows_of in Er.
    pose proof (pred_rows_loop_spec (predictions res)
                  [[CText "Disease"; CText "Probability"]]) as H.
    cbn [d_predictions] in Er.
    destruct (find unknown_label (map fst (predictions res))) as [label|].
    + rewrite H in Er. inversion Er. cbn. discriminate.
    + destruct H as (rows & Hr & _). rewrite Hr in Er. discriminate.
Qed.

Lemma generate_pdf_report_404 (ext : Externals) (cfg : Config) (now image_id : string)
    (w : World) :
  http_status (fst (generate_pdf_report ext cfg now image_id w)) = 404%nat ->
  first_with_prefix (image_id ++ "_") (upload_listing cfg w) = None.
Proof.
  unfold generate_pdf_report. rewrite (find_image_path_by_id_listing cfg w image_id).
  destruct (first_with_prefix _ _) as [name|]; [|reflexivity].
  pose proof (predict_oct_inference ext (OsPath.join (UPLOAD_FOLDER cfg) name)
                (MODEL_PATH cfg) (Some CLASS_NAMES) w) as Hi.
  destruct (predict_oct _ _ _ _ _) as [[r|e] w1]; cbn [fst] in *.
  - intro H. exfalso. exact (build_report_not_404 _ _ _ _ _ _ H).
  - simpl in Hi. rewrite (inference_status e Hi). discriminate.
Qed.






Lemma keys_set_superset {V : Type} (d : Dict.t V) (k n : string) (v : V) :
  In n (map fst d) -> In n (map fst (Dict.set d k v)).
Proof.
  induction d as [|[k0 v0] d IH]; simpl; [intros []|].
  destruct (String.eqb k0 k); simpl; intros [H|H]; auto.
Qed.




(** X10. An accepted upload only adds to the upload folder or overwrites
    the entry of its own saved name: every other directory, every other
    entry of the upload folder, the listing of the names that were there
    and the model cache are as before. *)
Theorem upload_image_keeps_others :
  forall (ext : Externals) (cfg : Config) (random_bits : N) (request : Request)
         (w : World) (file : FileStorage) (entries : Dir),
    (forall s, PyStr.contains "/" (secure_filename ext s) = false) ->
    Dict.get (fs w) (UPLOAD_FOLDER cfg) = Some entries ->
    Dict.get (files request) "image" = Some file ->
    filename file <> "" ->
    is_allowed_file (filename file) ALLOWED_EXTENSIONS = true ->
    let w' := snd (upload_image ext cfg random_bits request w) in
    let saved :=
      build_saved_filename (secure_filename ext) (generate_image_id random_bits)
        (filename file) in
    _model w' = _model w /\ load_log w' = load_log w /\
    (forall d, d <> UPLOAD_FOLDER cfg -> Dict.get (fs w') d = Dict.get (fs w) d) /\
    exists entries',
      Dict.get (fs w') (UPLOAD_FOLDER cfg) = Some entries' /\
      (forall name, name <> saved -> Dict.get entries' name = Dict.get entries name) /\
      (forall name, In name (map fst entries) -> In name (map fst entries')).
Proof.
  intros ext cfg random_bits request w file entries Hsec Hget Hfile Hname Hallowed
         w' saved. subst w'.
  destruct (N.leb_spec (content_length request) MAX_CONTENT_LENGTH) as [Hsize|Hsize].
  - rewrite (upload_image_stores ext cfg random_bits request w file entries
               Hsize Hsec Hget Hfile Hname Hallowed).
    cbn [snd fs _model load_log with_fs]. fold saved.
    split; [reflexivity|]. split; [reflexivity|]. split.
    + intros d Hd. apply get_set_other. auto.
    + exists (Dict.set entries saved (Bytes (stream file))).
      split; [apply FsFacts.get_set_same|]. split.
      * intros name Hn. apply get_set_other. auto.
      * intros name. apply keys_set_superset.
  - unfold upload_image, request_files. apply N.ltb_lt in Hsize. rewrite Hsize.
    cbn [abort snd]. split; [reflexivity|]. split; [reflexivity|].
    split; [reflexivity|]. exists entries. auto.
Qed.

(* ------------------------------------------------------------------ *)
(** ** Inference: effects, bounds and ties *)

(** [predict_oct] once the model and the image are at hand. *)
Lemma predict_oct_loaded (ext : Externals) (image_path model_path : string)
    (class_names : option (list string)) (w w1 : World) (model : Model) (img : list Q) :
  get_model ext model_path w = (Ok model, w1) ->
  load_img ext w1 image_path (299, 299)%nat = Ok img ->
  predict_oct ext image_path model_path class_names w =
  ((let names := class_names_or_default class_names in
    let probs := predict model (preprocess_input (expand_dims (img_to_array img))) in
    top_idx <- np_argmax probs ;;
    preds <- predictions_dict names probs ;;
    top <- py_index names top_idx ;;
    conf <- py_index probs top_idx ;;
    Ok {| predictions := preds; top_disease := top; confidence := conf |})%result, w1).
Proof.
  intros Hget Himg. unfold predict_oct. rewrite Hget, Himg. reflexivity.
Qed.

Lemma get_model_fs (ext : Externals) (model_path : string) (w : World) :
  fs (snd (get_model ext model_path w)) = fs w.
Proof.
  unfold get_model. destruct (_model w); [reflexivity|].
  destruct (load_model ext w model_path); reflexivity.
Qed.

Lemma predict_oct_fs (ext : Externals) (image_path model_path : string)
    (class_names : option (list string)) (w : World) :
  fs (snd (predict_oct ext image_path model_path class_names w)) = fs w.
Proof.
  unfold predict_oct. pose proof (get_model_fs ext model_path w) as H.
  destruct (get_model ext model_path w) as [[m|e] w1]; exact H.
Qed.

Lemma predict_oct_cached (ext : Externals) (image_path model_path : string)
    (class_names : option (list string)) (w : World) (m : Model) :
  _model w = Some m ->
  snd (predict_oct ext image_path model_path class_names w) = w.
Proof.
  intro H. unfold predict_oct. rewrite (get_model_cached ext model_path w m H).
  reflexivity.
Qed.

(** X11. [GET /predict/<id>] never writes to the file system, whatever it
    answers; the only state it can change is the model cache, and with a
    model already cached it changes nothing at all. *)
Theorem predict_handler_read_only :
  forall (ext : Externals) (cfg : Config) (image_id : string) (w : World),
    let w' := snd (predict_handler ext cfg image_id w) in
    fs w' = fs w /\
    match _model w with
    | Some _ => w' = w
    | None => True
    end.
Proof.
  intros ext cfg image_id w. cbv zeta. unfold predict_handler.
  destruct (find_image_path_by_id (fs w) image_id (UPLOAD_FOLDER cfg)) as [[path|]|e];
    try (split; [reflexivity|destruct (_model w); auto]).
  pose proof (predict_oct_fs ext path (MODEL_PATH cfg) (Some CLASS_NAMES) w) as Hfs.
  assert (Hc : forall m, _model w = Some m ->
                 snd (predict_oct ext path (MODEL_PATH cfg) (Some CLASS_NAMES) w) = w).
  { intros m Hm. eapply predict_oct_cached. exact Hm. }
  destruct (predict_oct ext path (MODEL_PATH cfg) (Some CLASS_NAMES) w) as [[r|e] w1];
    [destruct (predict_texts r)|]; cbn [snd] in *;
    (split; [exact Hfs|destruct (_model w) as [m|]; [exact (Hc m eq_refl)|exact I]]).
Qed.

(** X12. With a model in the cache, the [model_path] argument of
    [predict_oct] is ignored: any two paths give the same result, from the
    cached model, and no file is loaded. *)
Theorem predict_oct_ignores_model_path :
  forall (ext : Externals) (image_path path1 path2 : string)
         (class_names : option (list string)) (w : World) (m : Model),
    _model w = Some m ->
    predict_oct ext image_path path1 class_names w
      = predict_oct ext image_path path2 class_names w /\
    load_log (snd (predict_oct ext image_path path1 class_names w)) = load_log w.
Proof.
  intros ext image_path path1 path2 class_names w m Hm. split.
  - unfold predict_oct.
    rewrite (get_model_cached ext path1 w m Hm), (get_model_cached ext path2 w m Hm).
    reflexivity.
  - rewrite (predict_oct_cached ext image_path path1 class_names w m Hm). reflexivity.
Qed.

Lemma predict_oct_ignores_model_path_witness :
  predict_oct cache_demo_ext "/srv/uploads/oct_12ab34cd_scan.png" "/srv/m.h5"
    (Some ["CNV"; "NORMAL"]) infer_demo_loaded
  = predict_oct cache_demo_ext "/srv/uploads/oct_12ab34cd_scan.png" "/nowhere/other.h5"
      (Some ["CNV"; "NORMAL"]) infer_demo_loaded /\
  load_log (snd (predict_oct cache_demo_ext "/srv/uploads/oct_12ab34cd_scan.png"
                   "/srv/m.h5" (Some ["CNV"; "NORMAL"]) infer_demo_loaded))
  = ["/srv/m.h5"].
Proof.
  exact (predict_oct_ignores_model_path cache_demo_ext
           "/srv/uploads/oct_12ab34cd_scan.png" "/srv/m.h5" "/nowhere/other.h5"
           (Some ["CNV"; "NORMAL"]) infer_demo_loaded cache_demo_model eq_refl).
Defined.

Lemma predictions_fold_raise (class_names : list string) (probs : list Q)
    (l : list nat) (e : exn) :
  fold_left
    (fun acc i =>
       (d <- acc ;;
        k <- py_index class_names i ;;
        p <- py_index probs i ;;
        Ok (Dict.set d k p))%result)
    l (Raise e) = Raise e.
Proof. induction l as [|i l IH]; simpl; [reflexivity|exact IH]. Qed.

(** Over positions that both lists have, the comprehension does not
    raise. *)
Lemma predictions_fold_prefix (class_names : list string) (probs : list Q) (n : nat) :
  (n <= length class_names)%nat -> (n <= length probs)%nat ->
  exists d,
    fold_left
      (fun acc i =>
         (d <- acc ;;
          k <- py_index class_names i ;;
          p <- py_index probs i ;;
          Ok (Dict.set d k p))%result)
      (seq 0 n) (Ok []) = Ok d.
Proof.
  induction n as [|n IH]; intros Hc Hp; [exists []; reflexivity|].
  destruct IH as [d Hd]; [lia|lia|].
  destruct (nth_error class_names n) as [k|] eqn:Ek;
    [|apply nth_error_None in Ek; lia].
  destruct (nth_error probs n) as [p|] eqn:Ep;
    [|apply nth_error_None in Ep; lia].
  exists (Dict.set d k p).
  rewrite seq_S, fold_left_app, Hd. cbn [fold_left rbind Nat.add].
  unfold py_index. rewrite Ek, Ep. reflexivity.
Qed.

Lemma predictions_dict_long (class_names : list string) (probs : list Q) :
  (length class_names <= length probs)%nat ->
  exists d, predictions_dict class_names probs = Ok d.
Proof.
  intro H. unfold predictions_dict. apply predictions_fold_prefix; [lia|exact H].
Qed.

Lemma predictions_dict_short (class_names : list string) (probs : list Q) :
  (length probs < length class_names)%nat ->
  predictions_dict class_names probs = Raise IndexError.
Proof.
  intro H. unfold predictions_dict.
  replace (length class_names)
    with (length probs + S (length class_names - S (length probs)))%nat by lia.
  rewrite seq_app, fold_left_app.
  destruct (predictions_fold_prefix class_names probs (length probs)) as [d Hd];
    [lia|lia|].
  rewrite Hd. cbn [seq fold_left rbind Nat.add].
  destruct (nth_error class_names (length probs)) as [k|] eqn:Ek;
    [|apply nth_error_None in Ek; lia].
  assert (Ep : nth_error probs (length probs) = None) by (apply nth_error_None; lia).
  assert (Hstep : (k0 <- py_index class_names (length probs) ;;
                   p <- py_index probs (length probs) ;;
                   Ok (Dict.set d k0 p))%result = Raise IndexError).
  { unfold py_index. rewrite Ek, Ep. reflexivity. }
  rewrite Hstep. apply predictions_fold_raise.
Qed.

(** X13. When the model returns fewer scores than there are class names,
    [predict_oct] does not return a result: it raises [ValueError] for an
    empty score vector (from the argmax) and [IndexError] otherwise (from
    the mapping), with the model left cached. *)
Theorem predict_oct_too_few_scores :
  forall (ext : Externals) (image_path model_path : string)
         (class_names : option (list string)) (w w1 : World)
         (model : Model) (img : list Q),
    get_model ext model_path w = (Ok model, w1) ->
    load_img ext w1 image_path (299, 299)%nat = Ok img ->
    let names := class_names_or_default class_names in
    let probs := predict model (preprocess_input (expand_dims (img_to_array img))) in
    (length probs < length names)%nat ->
    predict_oct ext image_path model_path class_names w =
    (Raise (match probs with [] => ValueError | _ :: _ => IndexError end), w1).
Proof.
  intros ext image_path model_path class_names w w1 model img Hget Himg names probs Hlen.
  rewrite (predict_oct_loaded _ _ _ _ _ _ _ _ Hget Himg). cbv zeta.
  fold names. fold probs. destruct probs as [|p ps] eqn:Ep; [reflexivity|].
  cbn [np_argmax rbind]. rewrite <- Ep in *.
  rewrite (predictions_dict_short names probs Hlen). reflexivity.
Qed.

Lemma predict_oct_too_few_scores_witness :
  predict_oct cache_demo_ext "/srv/uploads/oct_12ab34cd_scan.png" "/srv/m.h5" None
    infer_demo_world = (Raise IndexError, infer_demo_loaded).
Proof.
  apply (predict_oct_too_few_scores cache_demo_ext "/srv/uploads/oct_12ab34cd_scan.png"
           "/srv/m.h5" None infer_demo_world infer_demo_loaded cache_demo_model [0; 255]).
  - reflexivity.
  - reflexivity.
  - vm_compute. lia.
Defined.

(** X14. When the model returns at least as many scores as there are class
    names, [predict_oct] returns a result exactly when the argmax position
    is one of a class name; a largest score beyond the names raises
    [IndexError]. *)
Theorem predict_oct_extra_scores :
  forall (ext : Externals) (image_path model_path : string)
         (class_names : option (list string)) (w w1 : World)
         (model : Model) (img : list Q) (top_idx : nat),
    get_model ext model_path w = (Ok model, w1) ->
    load_img ext w1 image_path (299, 299)%nat = Ok img ->
    let names := class_names_or_default class_names in
    let probs := predict model (preprocess_input (expand_dims (img_to_array img))) in
    (length names <= length probs)%nat ->
    np_argmax probs = Ok top_idx ->
    if (top_idx <? length names)%nat then
      exists r,
        predict_oct ext image_path model_path class_names w = (Ok r, w1) /\
        nth_error names top_idx = Some (top_disease r) /\
        nth_error probs top_idx = Some (confidence r)
    else
      predict_oct ext image_path model_path class_names w = (Raise IndexError, w1).
Proof.
  intros ext image_path model_path class_names w w1 model img top_idx Hget Himg
         names probs Hlen Harg.
  rewrite (predict_oct_loaded _ _ _ _ _ _ _ _ Hget Himg). cbv zeta.
  fold names. fold probs. rewrite Harg. cbn [rbind].
  destruct (predictions_dict_long names probs Hlen) as [d Hd]. rewrite Hd. cbn [rbind].
  unfold py_index.
  destruct (Nat.ltb_spec top_idx (length names)) as [Hi|Hi].
  - destruct (nth_error names top_idx) as [t|] eqn:Et;
      [|apply nth_error_None in Et; lia].
    destruct (nth_error probs top_idx) as [c|] eqn:Ec;
      [|apply nth_error_None in Ec; lia].
    cbn [rbind]. eexists. split; [reflexivity|]. split; reflexivity.
  - assert (Et : nth_error names top_idx = None) by (apply nth_error_None; exact Hi).
    rewrite Et. reflexivity.
Qed.

Lemma predict_oct_extra_scores_witness :
  predict_oct cache_demo_ext "/srv/uploads/oct_12ab34cd_scan.png" "/srv/m.h5"
    (Some []) infer_demo_world = (Raise IndexError, infer_demo_loaded).
Proof.
  apply (predict_oct_extra_scores cache_demo_ext "/srv/uploads/oct_12ab34cd_scan.png"
           "/srv/m.h5" (Some []) infer_demo_world infer_demo_loaded cache_demo_model
           [0; 255] 0%nat).
  - reflexivity.
  - reflexivity.
  - vm_compute. lia.
  - reflexivity.
Defined.

(** [argmax_from] keeps the running best unless a later entry is strictly
    larger; the entry it moves to is strictly larger than everything
    before it. *)
Lemma argmax_from_first (l : list Q) :
  forall best_i best i,
    argmax_from best_i best i l = best_i \/
    (exists k v, argmax_from best_i best i l = (i + k)%nat /\ nth_error l k = Some v /\
                 best < v /\
                 forall j u, (j < k)%nat -> nth_error l j = Some u -> u < v).
Proof.
  induction l as [|x l IH]; intros bi b i; simpl; [left; reflexivity|].
  destruct (Qle_bool x b) eqn:E.
  - apply Qle_bool_iff in E.
    destruct (IH bi b (S i)) as [H|(k & v & H1 & H2 & H3 & H4)]; [left; exact H|].
    right. exists (S k), v. refine (conj _ (conj H2 (conj H3 _))).
    + rewrite H1. lia.
    + intros [|j] u Hj Hu; simpl in Hu.
      * inversion Hu; subst. eapply Qle_lt_trans; eassumption.
      * apply (H4 j u); [lia|exact Hu].
  - assert (Hlt : b < x).
    { apply Qnot_le_lt. intro H. apply Qle_bool_iff in H. congruence. }
    right. destruct (IH i x (S i)) as [H|(k & v & H1 & H2 & H3 & H4)].
    + exists 0%nat, x. refine (conj _ (conj eq_refl (conj Hlt _))).
      * rewrite H. lia.
      * intros j u Hj. lia.
    + exists (S k), v. refine (conj _ (conj H2 (conj _ _))).
      * rewrite H1. lia.
      * eapply Qlt_trans; eassumption.
      * intros [|j] u Hj Hu; simpl in Hu.
        -- inversion Hu; subst. exact H3.
        -- apply (H4 j u); [lia|exact Hu].
Qed.

Lemma np_argmax_first (probs : list Q) (i : nat) :
  np_argmax probs = Ok i ->
  exists v, nth_error probs i = Some v /\
            forall j u, (j < i)%nat -> nth_error probs j = Some u -> u < v.
Proof.
  destruct probs as [|x rest]; [discriminate|]. simpl. intro H. inversion H as [Hi].
  destruct (argmax_from_first rest 0%nat x 1%nat) as [H0|(k & v & H1 & H2 & H3 & H4)].
  - rewrite H0. exists x. split; [reflexivity|]. intros j u Hj. lia.
  - rewrite H1. exists v. split; [exact H2|].
    intros [|j] u Hj Hu; simpl in Hu.
    + inversion Hu; subst. exact H3.
    + apply (H4 j u); [lia|exact Hu].
Qed.

(** X15. Ties go to the class listed first: in a result of [predict_oct],
    [top_disease] and [confidence] sit at one position of the class names
    and of the score vector, no score is larger than [confidence], and
    every score before that position is strictly smaller. *)
Theorem predict_oct_first_maximum :
  forall (ext : Externals) (image_path model_path : string)
         (class_names : option (list string)) (w w1 : World)
         (model : Model) (img : list Q) (r : PredictionResult),
    get_model ext model_path w = (Ok model, w1) ->
    load_img ext w1 image_path (299, 299)%nat = Ok img ->
    predict_oct ext image_path model_path class_names w = (Ok r, w1) ->
    let names := class_names_or_default class_names in
    let probs := predict model (preprocess_input (expand_dims (img_to_array img))) in
    exists i,
      nth_error names i = Some (top_disease r) /\
      nth_error probs i = Some (confidence r) /\
      Forall (fun p => p <= confidence r) probs /\
      forall j u, (j < i)%nat -> nth_error probs j = Some u -> u < confidence r.
Proof.
  intros ext image_path model_path class_names w w1 model img r Hget Himg Hres
         names probs.
  rewrite (predict_oct_loaded _ _ _ _ _ _ _ _ Hget Himg) in Hres. cbv zeta in Hres.
  fold names in Hres. fold probs in Hres.
  destruct (np_argmax probs) as [i|e] eqn:Harg; [|discriminate]. cbn [rbind] in Hres.
  destruct (predictions_dict names probs) as [d|e]; [|discriminate].
  cbn [rbind] in Hres. unfold py_index in Hres.
  destruct (nth_error names i) as [t|] eqn:Et; [|discriminate].
  destruct (nth_error probs i) as [c|] eqn:Ec; [|discriminate].
  cbn [rbind] in Hres. inversion Hres; subst r. cbn [top_disease confidence].
  exists i. split; [exact Et|]. split; [exact Ec|].
  destruct (np_argmax_first probs i Harg) as (v & Hv & Hfirst).
  assert (v = c) by congruence. subst v.
  split; [|exact Hfirst].
  assert (Hne : probs <> []) by (intro E; rewrite E in Harg; discriminate).
  destruct (np_argmax_spec probs Hne) as (i' & v' & Ha & Hv' & Hmax).
  assert (i' = i) by congruence. subst i'.
  assert (v' = c) by congruence. subst v'. exact Hmax.
Qed.

Lemma predict_oct_first_maximum_witness :
  exists i,
    nth_error ["AMD"; "CNV"; "CSR"] i = Some "CNV" /\
    nth_error [2 # 10; 4 # 10; 4 # 10] i = Some (4 # 10) /\
    Forall (fun p => p <= 4 # 10) [2 # 10; 4 # 10; 4 # 10] /\
    forall j u, (j < i)%nat -> nth_error [2 # 10; 4 # 10; 4 # 10] j = Some u -> u < 4 # 10.
Proof.
  apply (predict_oct_first_maximum cache_demo_ext "/srv/uploads/oct_12ab34cd_scan.png"
           "/srv/m.h5" (Some ["AMD"; "CNV"; "CSR"]) tie_demo_world tie_demo_world
           tie_demo_model [0; 255] tie_demo_result).
  - reflexivity.
  - reflexivity.
  - reflexivity.
Defined.

(** X16. With the module's model in the cache, the adapter called without
    class names computes what [predict_oct] of [test.py] computes: the same
    result or the same exception, and the world is left as it was. *)
Theorem test_predict_oct_agrees :
  forall (ext : Externals) (image_path model_path : string) (w : World) (model : Model),
    _model w = Some model ->
    predict_oct ext image_path model_path None w
      = (test_predict_oct ext model image_path w, w).
Proof.
  intros ext image_path model_path w model Hm. unfold predict_oct, test_predict_oct.
  rewrite (get_model_cached ext model_path w model Hm). reflexivity.
Qed.

Lemma test_predict_oct_agrees_witness :
  predict_oct cache_demo_ext "/srv/uploads/oct_12ab34cd_scan.png" "/srv/m.h5" None
    tie_demo_world
  = (test_predict_oct cache_demo_ext tie_demo_model "/srv/uploads/oct_12ab34cd_scan.png"
       tie_demo_world, tie_demo_world).
Proof.
  exact (test_predict_oct_agrees cache_demo_ext "/srv/uploads/oct_12ab34cd_scan.png"
           "/srv/m.h5" tie_demo_world tie_demo_model eq_refl).
Defined.

(* ------------------------------------------------------------------ *)
(** ** Report endpoint *)

(** X17. [GET /report/<id>] answers 404 exactly when the upload folder
    lists no name that starts with [<id>_], and then leaves the world as it
    was. Otherwise it runs inference on the first such entry: a failure of
    inference is the handler's outcome, a server error (500); a result is
    handed to the report builder, which never answers 404. *)
Theorem generate_pdf_report_outcomes :
  forall (ext : Externals) (cfg : Config) (now image_id : string) (w : World),
    let outcome := generate_pdf_report ext cfg now image_id w in
    (http_status (fst outcome) = 404%nat <->
     Forall (fun name => PyStr.startswith (image_id ++ "_") name = false)
            (upload_listing cfg w)) /\
    match first_with_prefix (image_id ++ "_") (upload_listing cfg w) with
    | None => outcome = (abort 404 "Image not found.", w)
    | Some name =>
        let image_path := OsPath.join (UPLOAD_FOLDER cfg) name in
        match predict_oct ext image_path (MODEL_PATH cfg) (Some CLASS_NAMES) w with
        | (Ok res, w1) => outcome = build_report cfg now image_id image_path res w1
        | (Raise e, w1) => outcome = (Raise e, w1) /\ http_status (fst outcome) = 500%nat
        end
    end.
Proof.
  intros ext cfg now image_id w outcome. split.
  - split.
    + intro H. apply first_with_prefix_none.
      exact (generate_pdf_report_404 ext cfg now image_id w H).
    + intro H. apply first_with_prefix_none in H. subst outcome.
      unfold generate_pdf_report.
      rewrite (find_image_path_by_id_listing cfg w image_id), H. reflexivity.
  - subst outcome. unfold generate_pdf_report.
    rewrite (find_image_path_by_id_listing cfg w image_id).
    destruct (first_with_prefix _ _) as [name|]; [|reflexivity]. cbv zeta.
    pose proof (predict_oct_inference ext (OsPath.join (UPLOAD_FOLDER cfg) name)
                  (MODEL_PATH cfg) (Some CLASS_NAMES) w) as Hi.
    destruct (predict_oct _ _ _ _ _) as [[res|e] w1]; [reflexivity|].
    split; [reflexivity|]. cbn [fst] in *. apply inference_status. exact Hi.
Qed.

Lemma keys_set_present {V : Type} (d : Dict.t V) (k : string) (v : V) :
  In k (map fst d) -> map fst (Dict.set d k v) = map fst d.
Proof.
  induction d as [|[k0 v0] d IH]; simpl; [intros []|].
  destruct (String.eqb_spec k0 k) as [->|Hne]; [reflexivity|].
  intros [H|H]; [contradiction|]. simpl. rewrite (IH H). reflexivity.
Qed.

Lemma report_name_no_sep (image_id : string) :
  PyStr.contains "/" image_id = false ->
  PyStr.contains "/" (image_id ++ "_report.pdf") = false.
Proof. intro H. rewrite PyStrFacts.contains_app, H. reflexivity. Qed.

(** A report of known labels is written as one entry of the reports
    folder. *)
Lemma build_report_writes (cfg : Config) (now image_id image_path : string)
    (res : PredictionResult) (w1 : World) (entries : Dir) (rows : list (list Cell)) :
  PyStr.contains "/" image_id = false ->
  Dict.get (fs w1) (REPORTS_FOLDER cfg) = Some entries ->
  pred_rows_of (predictions res) = Ok rows ->
  exists elements footer,
    build_report cfg now image_id image_path res w1 =
    (Ok (send_file (OsPath.join (REPORTS_FOLDER cfg) (image_id ++ "_report.pdf"))
           "application/pdf" ("report_" ++ image_id ++ ".pdf")),
     with_fs w1
       (Dict.set (fs w1) (REPORTS_FOLDER cfg)
          (Dict.set entries (image_id ++ "_report.pdf")
             (Pdf "OCT Diagnostic Report" elements footer)))).
Proof.
  intros Hid Hget Hrows. unfold build_report.
  destruct (report_texts _) as [s t]. cbn [d_predictions]. rewrite Hrows.
  unfold Fs.write.
  destruct (FolderFacts.dirname_join (REPORTS_FOLDER cfg) (image_id ++ "_report.pdf")
              (FolderFacts.REPORTS_FOLDER_proper cfg) (report_name_no_sep _ Hid))
    as [Hd Hb].
  rewrite Hd, Hb, Hget. do 2 eexists. reflexivity.
Qed.

Lemma predict_oct_known_rows (ext : Externals) (image_path model_path : string)
    (w w1 : World) (res : PredictionResult) :
  predict_oct ext image_path model_path (Some CLASS_NAMES) w = (Ok res, w1) ->
  exists rows, pred_rows_of (predictions res) = Ok rows.
Proof.
  intro Hp.
  pose proof (pred_rows_loop_spec (predictions res)
                [[CText "Disease"; CText "Probability"]]) as H.
  fold (pred_rows_of (predictions res)) in H.
  pose proof (find_none_known _ (predict_oct_keys _ _ _ _ _ _ _ Hp)) as Hn.
  unfold Dict.keys in Hn. rewrite Hn in H.
  destruct H as (rows & Hr & _). eauto.
Qed.

Lemma generate_pdf_report_writes (ext : Externals) (cfg : Config) (now image_id : string)
    (w w1 : World) (image_path : string) (res : PredictionResult) (entries : Dir) :
  PyStr.contains "/" image_id = false ->
  Dict.get (fs w) (REPORTS_FOLDER cfg) = Some entries ->
  find_image_path_by_id (fs w) image_id (UPLOAD_FOLDER cfg) = Ok (Some image_path) ->
  predict_oct ext image_path (MODEL_PATH cfg) (Some CLASS_NAMES) w = (Ok res, w1) ->
  exists elements footer,
    generate_pdf_report ext cfg now image_id w =
    (Ok (send_file (OsPath.join (REPORTS_FOLDER cfg) (image_id ++ "_report.pdf"))
           "application/pdf" ("report_" ++ image_id ++ ".pdf")),
     with_fs w1
       (Dict.set (fs w) (REPORTS_FOLDER cfg)
          (Dict.set entries (image_id ++ "_report.pdf")
             (Pdf "OCT Diagnostic Report" elements footer)))).
Proof.
  intros Hid Hget Hfind Hp. unfold generate_pdf_report. rewrite Hfind, Hp.
  destruct (predict_oct_known_rows _ _ _ _ _ _ Hp) as [rows Hrows].
  pose proof (predict_oct_fs ext image_path (MODEL_PATH cfg) (Some CLASS_NAMES) w) as Hfs.
  rewrite Hp in Hfs. cbn [snd] in Hfs. rewrite <- Hfs in Hget.
  destruct (build_report_writes cfg now image_id image_path res w1 entries rows
              Hid Hget Hrows) as (elements & footer & Hb).
  exists elements, footer. rewrite Hb, Hfs. reflexivity.
Qed.

Lemma build_report_needs_folder (cfg : Config) (now image_id image_path : string)
    (res : PredictionResult) (w1 : World) (resp : Response) :
  PyStr.contains "/" image_id = false ->
  fst (build_report cfg now image_id image_path res w1) = Ok resp ->
  exists entries, Dict.get (fs w1) (REPORTS_FOLDER cfg) = Some entries.
Proof.
  intros Hid. unfold build_report.
  destruct (report_texts _) as [s t].
  destruct (pred_rows_of _) as [rows|e]; [|discriminate].
  unfold Fs.write.
  destruct (FolderFacts.dirname_join (REPORTS_FOLDER cfg) (image_id ++ "_report.pdf")
              (FolderFacts.REPORTS_FOLDER_proper cfg) (report_name_no_sep _ Hid))
    as [Hd Hb].
  rewrite Hd.
  destruct (Dict.get (fs w1) (REPORTS_FOLDER cfg)) as [entries|]; [eauto|discriminate].
Qed.

(** X18. Whenever [GET /report/<id>], for an id without a path separator,
    returns a response rather than raising, the response sends the file
    [<reports>/<id>_report.pdf] as [report_<id>.pdf]; that path then reads
    as the PDF document just built, and every directory other than the
    reports folder is as before. *)
Theorem generate_pdf_report_written :
  forall (ext : Externals) (cfg : Config) (now image_id : string) (w : World)
         (resp : Response),
    PyStr.contains "/" image_id = false ->
    fst (generate_pdf_report ext cfg now image_id w) = Ok resp ->
    let pdf_path := OsPath.join (REPORTS_FOLDER cfg) (image_id ++ "_report.pdf") in
    let outcome := generate_pdf_report ext cfg now image_id w in
    resp = send_file pdf_path "application/pdf" ("report_" ++ image_id ++ ".pdf") /\
    (exists elements footer,
        Fs.read (fs (snd outcome)) pdf_path
          = Ok (Pdf "OCT Diagnostic Report" elements footer)) /\
    forall d, d <> REPORTS_FOLDER cfg ->
              Dict.get (fs (snd outcome)) d = Dict.get (fs w) d.
Proof.
  intros ext cfg now image_id w resp Hid Hok pdf_path outcome. subst outcome pdf_path.
  assert (Hparts : exists image_path res w1 entries,
             find_image_path_by_id (fs w) image_id (UPLOAD_FOLDER cfg)
               = Ok (Some image_path) /\
             predict_oct ext image_path (MODEL_PATH cfg) (Some CLASS_NAMES) w
               = (Ok res, w1) /\
             Dict.get (fs w) (REPORTS_FOLDER cfg) = Some entries).
  { unfold generate_pdf_report in Hok.
    destruct (find_image_path_by_id (fs w) image_id (UPLOAD_FOLDER cfg))
      as [[image_path|]|e]; [|discriminate Hok|discriminate Hok].
    cbv zeta in Hok.
    pose proof (predict_oct_fs ext image_path (MODEL_PATH cfg) (Some CLASS_NAMES) w)
      as Hfs.
    destruct (predict_oct ext image_path (MODEL_PATH cfg) (Some CLASS_NAMES) w)
      as [[res|e] w1] eqn:Hp; [|discriminate Hok].
    cbn [snd] in Hfs.
    destruct (build_report_needs_folder _ _ _ _ _ _ _ Hid Hok) as [entries Hget].
    rewrite Hfs in Hget. exists image_path, res, w1, entries. auto. }
  destruct Hparts as (image_path & res & w1 & entries & Hfind & Hp & Hget).
  destruct (generate_pdf_report_writes ext cfg now image_id w w1 image_path res entries
              Hid Hget Hfind Hp) as (elements & footer & Hg).
  rewrite Hg in Hok |- *. cbn [fst snd fs with_fs] in Hok |- *.
  split; [congruence|]. split.
  - exists elements, footer.
    destruct (FolderFacts.dirname_join (REPORTS_FOLDER cfg) (image_id ++ "_report.pdf")
                (FolderFacts.REPORTS_FOLDER_proper cfg) (report_name_no_sep _ Hid))
      as [Hd Hb].
    unfold Fs.read. rewrite Hd, Hb, !FsFacts.get_set_same. reflexivity.
  - intros d Hd. apply get_set_other. auto.
Qed.

(** X19. A report is regenerated in place: when the reports folder already
    lists [<id>_report.pdf], a successful [GET /report/<id>] leaves the
    listing of the reports folder as it was. *)
Theorem generate_pdf_report_overwrites :
  forall (ext : Externals) (cfg : Config) (now image_id : string) (w w1 : World)
         (image_path : string) (res : PredictionResult) (entries : Dir),
    PyStr.contains "/" image_id = false ->
    Dict.get (fs w) (REPORTS_FOLDER cfg) = Some entries ->
    In (image_id ++ "_report.pdf") (map fst entries) ->
    find_image_path_by_id (fs w) image_id (UPLOAD_FOLDER cfg) = Ok (Some image_path) ->
    predict_oct ext image_path (MODEL_PATH cfg) (Some CLASS_NAMES) w = (Ok res, w1) ->
    Fs.listdir (fs (snd (generate_pdf_report ext cfg now image_id w))) (REPORTS_FOLDER cfg)
      = Fs.listdir (fs w) (REPORTS_FOLDER cfg).
Proof.
  intros ext cfg now image_id w w1 image_path res entries Hid Hget Hin Hfind Hp.
  destruct (generate_pdf_report_writes ext cfg now image_id w w1 image_path res entries
              Hid Hget Hfind Hp) as (elements & footer & Hg).
  rewrite Hg. cbn [snd fs with_fs]. unfold Fs.listdir.
  rewrite FsFacts.get_set_same, Hget, (keys_set_present _ _ _ Hin). reflexivity.
Qed.

Lemma generate_pdf_report_written_witness :
  let outcome :=
    generate_pdf_report report_demo_ext upload_demo_cfg "2025-01-01 10:00:00"
      "oct_12ab34cd" report_demo_world in
  send_file "/srv/reports/oct_12ab34cd_report.pdf" "application/pdf"
    "report_oct_12ab34cd.pdf"
    = send_file "/srv/reports/oct_12ab34cd_report.pdf" "application/pdf"
        "report_oct_12ab34cd.pdf" /\
  (exists elements footer,
      Fs.read (fs (snd outcome)) "/srv/reports/oct_12ab34cd_report.pdf"
        = Ok (Pdf "OCT Diagnostic Report" elements footer)) /\
  forall d, d <> "/srv/reports" ->
            Dict.get (fs (snd outcome)) d = Dict.get (fs report_demo_world) d.
Proof.
  apply (generate_pdf_report_written report_demo_ext upload_demo_cfg
           "2025-01-01 10:00:00" "oct_12ab34cd" report_demo_world
           (send_file "/srv/reports/oct_12ab34cd_report.pdf" "application/pdf"
              "report_oct_12ab34cd.pdf")).
  - reflexivity.
  - reflexivity.
Defined.

Lemma generate_pdf_report_overwrites_witness :
  Fs.listdir
    (fs (snd (generate_pdf_report report_demo_ext upload_demo_cfg "2025-01-01 10:00:00"
                "oct_12ab34cd" report_demo_world))) "/srv/reports"
  = Ok ["oct_0000aaaa_report.pdf"; "oct_12ab34cd_report.pdf"].
Proof.
  eapply (generate_pdf_report_overwrites report_demo_ext upload_demo_cfg
            "2025-01-01 10:00:00" "oct_12ab34cd" report_demo_world).
  - reflexivity.
  - reflexivity.
  - simpl. right. left. reflexivity.
  - reflexivity.
  - reflexivity.
Defined.

Lemma upload_image_keeps_others_witness :
  let w' := snd (upload_image upload_demo_ext upload_demo_cfg 0 upload_demo_request
                   collision_demo_world) in
  _model w' = None /\ load_log w' = [] /\
  (forall d, d <> "/srv/uploads" ->
             Dict.get (fs w') d = Dict.get (fs collision_demo_world) d) /\
  exists entries',
    Dict.get (fs w') "/srv/uploads" = Some entries' /\
    (forall name, name <> "oct_00000000_..myscan.PNG" ->
                  Dict.get entries' name
                  = Dict.get [("oct_00000000_first.png", Bytes "first")] name) /\
    (forall name, In name ["oct_00000000_first.png"] -> In name (map fst entries')).
Proof.
  apply (upload_image_keeps_others upload_demo_ext upload_demo_cfg 0 upload_demo_request
           collision_demo_world {| filename := "../my scan.PNG"; stream := "pixels" |}
           [("oct_00000000_first.png", Bytes "first")]).
  - exact demo_secure_filename_no_sep.
  - reflexivity.
  - reflexivity.
  - discriminate.
  - reflexivity.
Defined.

(* ------------------------------------------------------------------ *)
(** ** Mask endpoint: the overlay URL *)

Lemma rstrip_shape (c : ascii) (s : string) :
  PyStr.rstrip c s = "" \/
  exists x a, PyStr.rstrip c s = x ++ String a "" /\ a <> c.
Proof.
  induction s as [|b s IH]; [left; reflexivity|]. cbn [PyStr.rstrip].
  destruct IH as [H|(x & a & H & Ha)]; rewrite H.
  - destruct (Ascii.eqb_spec b c) as [->|Hne]; [left; reflexivity|].
    right. exists "", b. split; [reflexivity|exact Hne].
  - right. exists (String b x), a. split; [|exact Ha]. destruct x; reflexivity.
Qed.

Lemma rstrip_no_trailing (c : ascii) (s : string) :
  PyStr.endswith (String c "") (PyStr.rstrip c s) = false.
Proof.
  destruct (rstrip_shape c s) as [H|(x & a & H & Ha)]; rewrite H; [reflexivity|].
  unfold PyStr.endswith. rewrite PyStrFacts.chars_app, rev_app_distr.
  cbn [PyStr.chars list_ascii_of_string rev app string_of_list_ascii PyStr.startswith].
  destruct (Ascii.eqb_spec c a) as [E|_]; [congruence|reflexivity].
Qed.

(** What [rstrip] removes is a run of the stripped character. *)
Lemma rstrip_removes_run (c : ascii) (s : string) :
  exists n, s = PyStr.rstrip c s ++ string_of_list_ascii (repeat c n).
Proof.
  induction s as [|b s [n IH]]; [exists 0%nat; reflexivity|]. cbn [PyStr.rstrip].
  destruct (PyStr.rstrip c s) as [|b' r] eqn:E.
  - destruct (Ascii.eqb_spec b c) as [->|Hne].
    + exists (S n). simpl in *. rewrite <- IH. reflexivity.
    + exists n. simpl in *. rewrite <- IH. reflexivity.
  - exists n. change (String b (String b' r) ++ string_of_list_ascii (repeat c n))
      with (String b (String b' r ++ string_of_list_ascii (repeat c n))).
    rewrite <- IH. reflexivity.
Qed.

(** X20. The overlay URL of [GET /mask/<id>] is the configured base URL
    when one is set, and the request's host URL otherwise, without its
    trailing slashes, followed by [/results/result.jpg]: the part before
    [/results] never ends with a slash, and it differs from the chosen URL
    only by a run of trailing slashes. *)
Theorem mask_overlay_url :
  forall (cfg : Config) (request : Request) (image_id : string) (w : World),
    let chosen :=
      if String.eqb (SERVER_BASE_URL cfg) "" then host_url request
      else SERVER_BASE_URL cfg in
    exists (base : string) (n : nat) (thickness : list (string * Q)) (notes : string),
      fst (mask cfg request image_id w) =
      Ok (jsonify [("image_id", JStr image_id);
                   ("overlay_mask_url", JStr (base ++ "/results/result.jpg"));
                   ("retinal_layer_thickness", JDict thickness);
                   ("notes", JStr notes)]) /\
      PyStr.endswith "/" base = false /\
      chosen = base ++ string_of_list_ascii (repeat "/"%char n).
Proof.
  intros cfg request image_id w chosen. subst chosen. unfold mask.
  destruct (String.eqb (SERVER_BASE_URL cfg) ""); cbn [negb fst].
  - destruct (rstrip_removes_run "/" (host_url request)) as [n Hn].
    exists (PyStr.rstrip "/" (host_url request)), n. do 2 eexists.
    split; [reflexivity|]. split; [apply rstrip_no_trailing|exact Hn].
  - destruct (rstrip_removes_run "/" (SERVER_BASE_URL cfg)) as [n Hn].
    exists (PyStr.rstrip "/" (SERVER_BASE_URL cfg)), n. do 2 eexists.
    split; [reflexivity|]. split; [apply rstrip_no_trailing|exact Hn].
Qed.

(* ------------------------------------------------------------------ *)
(** ** The shape of a prediction response *)

Lemma predict_oct_inv (ext : Externals) (image_path model_path : string)
    (class_names : option (list string)) (w w1 : World) (r : PredictionResult) :
  predict_oct ext image_path model_path class_names w = (Ok r, w1) ->
  exists model img,
    get_model ext model_path w = (Ok model, w1) /\
    load_img ext w1 image_path (299, 299)%nat = Ok img.
Proof.
  unfold predict_oct.
  destruct (get_model ext model_path w) as [[m|e] w0]; [|discriminate].
  destruct (load_img ext w0 image_path (299, 299)%nat) as [img|e] eqn:Ei;
    [|discriminate].
  intro H. inversion H; subst. exists m, img. rewrite Ei. auto.
Qed.

(** Over distinct names the comprehension, when it returns, pairs each
    name with the score at its position. *)
Lemma predictions_dict_distinct (class_names : list string) (probs : list Q)
    (d : Dict.t Q) :
  NoDup class_names ->
  predictions_dict class_names probs = Ok d ->
  (length class_names <= length probs)%nat /\
  d = combine class_names (firstn (length class_names) probs).
Proof.
  intros Hnd Hd.
  assert (Hlen : (length class_names <= length probs)%nat).
  { destruct (Nat.le_gt_cases (length class_names) (length probs)) as [H|H]; [exact H|].
    rewrite (predictions_dict_short class_names probs H) in Hd. discriminate. }
  split; [exact Hlen|].
  unfold predictions_dict in Hd.
  rewrite (predictions_dict_prefix class_names probs (length class_names) Hnd
             (Nat.le_refl _) Hlen) in Hd.
  rewrite firstn_all in Hd. inversion Hd. reflexivity.
Qed.

Lemma keys_combine (names : list string) (vs : list Q) :
  (length names <= length vs)%nat -> map fst (combine names vs) = names.
Proof.
  revert vs. induction names as [|n names IH]; intros [|v vs] H; simpl in *;
    try reflexivity; [lia|]. rewrite IH; [reflexivity|lia].
Qed.

Lemma nth_error_firstn_lt {A : Type} (l : list A) (n i : nat) :
  (i < n)%nat -> nth_error (firstn n l) i = nth_error l i.
Proof.
  revert l i. induction n as [|n IH]; intros [|a l] [|i] H; simpl; try reflexivity;
    try lia. apply IH. lia.
Qed.

Lemma CLASS_NAMES_distinct : NoDup CLASS_NAMES.
Proof. unfold CLASS_NAMES. distinct_strings. Qed.

(** X22. Every successful response of [GET /predict/<id>] has the 8
    configured class names, in order, as the keys of its predictions; its
    [top_disease] is one of them, its [confidence] is
    [predictions[top_disease]], and its summary is the no-abnormality
    sentence exactly when [top_disease] is ["NORMAL"]. *)
Theorem predict_handler_response_shape :
  forall (ext : Externals) (cfg : Config) (image_id : string) (w w' : World)
         (fields : list (string * Json)),
    predict_handler ext cfg image_id w = (Ok (jsonify fields), w') ->
    exists (preds : Dict.t Q) (top : string) (conf : Q) (summary recommendation : string),
      fields = [("image_id", JStr image_id);
                ("predictions", JDict preds);
                ("top_disease", JStr top);
                ("confidence", JNum conf);
                ("summary", JStr summary);
                ("recommendation", JStr recommendation)] /\
      Dict.keys preds = ["AMD"; "CNV"; "CSR"; "DME"; "DR"; "DRUSEN"; "MH"; "NORMAL"] /\
      In top (Dict.keys preds) /\
      Dict.get preds top = Some conf /\
      (summary = "AI suggests no significant abnormalities detected ("
                   ++ Fmt.fixed 1 (conf * 100) ++ "% confidence)."
       <-> top = "NORMAL").
Proof.
  intros ext cfg image_id w w' fields H. unfold predict_handler in H.
  rewrite (find_image_path_by_id_listing cfg w image_id) in H.
  destruct (first_with_prefix _ _) as [name|]; [|discriminate].
  destruct (predict_oct ext (OsPath.join (UPLOAD_FOLDER cfg) name) (MODEL_PATH cfg)
              (Some CLASS_NAMES) w) as [[r|e] w1] eqn:Hp; [|discriminate].
  destruct (predict_oct_inv _ _ _ _ _ _ _ Hp) as (model & img & Hget & Himg).
  rewrite (predict_oct_loaded _ _ _ _ _ _ _ _ Hget Himg) in Hp. cbv zeta in Hp.
  cbn [class_names_or_default] in Hp.
  set (probs := predict model (preprocess_input (expand_dims (img_to_array img)))) in Hp.
  destruct (np_argmax probs) as [i|e] eqn:Harg; [|discriminate]. cbn [rbind] in Hp.
  destruct (predictions_dict CLASS_NAMES probs) as [d|e] eqn:Hd; [|discriminate].
  cbn [rbind] in Hp. unfold py_index in Hp.
  destruct (nth_error CLASS_NAMES i) as [t|] eqn:Et; [|discriminate].
  destruct (nth_error probs i) as [c|] eqn:Ec; [|discriminate].
  cbn [rbind] in Hp. inversion Hp; subst r. clear Hp.
  destruct (predictions_dict_distinct _ _ _ CLASS_NAMES_distinct Hd) as [Hlen ->].
  assert (Hkeys : Dict.keys (combine CLASS_NAMES (firstn (length CLASS_NAMES) probs))
                  = CLASS_NAMES).
  { unfold Dict.keys. apply keys_combine. rewrite length_firstn. lia. }
  assert (Hin : In t CLASS_NAMES) by (eapply nth_error_In; exact Et).
  unfold json_of_predictions in H.
  destruct (predict_texts _) as [s rec] eqn:Ht. inversion H; subst fields w'. clear H.
  exists (combine CLASS_NAMES (firstn (length CLASS_NAMES) probs)), t, c, s, rec.
  cbn [predictions top_disease confidence].
  split; [reflexivity|]. split; [exact Hkeys|]. split; [rewrite Hkeys; exact Hin|].
  split.
  - apply (DictFacts.get_combine_nth _ _ i); [exact CLASS_NAMES_distinct|exact Et|].
    rewrite nth_error_firstn_lt; [exact Ec|]. apply nth_error_Some. congruence.
  - unfold predict_texts in Ht. cbn [top_disease confidence] in Ht.
    assert (Hup : String.eqb (PyStr.upper t) "NORMAL" = String.eqb t "NORMAL").
    { revert Hin. clear. unfold CLASS_NAMES. simpl.
      intuition (subst; reflexivity). }
    rewrite Hup in Ht.
    destruct (String.eqb_spec t "NORMAL") as [->|Hne]; inversion Ht; subst s rec.
    + split; reflexivity.
    + split; [|contradiction]. intro E. exfalso.
      unfold CLASS_NAMES in Hin. cbn [In] in Hin.
      repeat (destruct Hin as [<-|Hin]; [cbn [append] in E; discriminate E|]).
      exact Hin.
Qed.

Lemma predict_handler_response_shape_witness :
  exists (preds : Dict.t Q) (top : string) (conf : Q) (summary recommendation : string),
    response_fields
      (predict_handler report_demo_ext upload_demo_cfg "oct_12ab34cd" report_demo_world)
    = [("image_id", JStr "oct_12ab34cd");
       ("predictions", JDict preds);
       ("top_disease", JStr top);
       ("confidence", JNum conf);
       ("summary", JStr summary);
       ("recommendation", JStr recommendation)] /\
    Dict.keys preds = ["AMD"; "CNV"; "CSR"; "DME"; "DR"; "DRUSEN"; "MH"; "NORMAL"] /\
    In top (Dict.keys preds) /\
    Dict.get preds top = Some conf /\
    (summary = "AI suggests no significant abnormalities detected ("
                 ++ Fmt.fixed 1 (conf * 100) ++ "% confidence)."
     <-> top = "NORMAL").
Proof.
  apply (predict_handler_response_shape report_demo_ext upload_demo_cfg "oct_12ab34cd"
           report_demo_world
           (snd (predict_handler report_demo_ext upload_demo_cfg "oct_12ab34cd"
                   report_demo_world))).
  reflexivity.
Defined.
